(** * nonebot-plugin-zxreport: the daily report pipeline of [data_source.py]

    A shallow embedding of [nonebot_plugin_zxreport/data_source.py]: the
    retrying HTTP client [AsyncHttpx.get], the daily file cache ([save] and the
    lookup at the head of [Report.get_report_image]), the festival calculator
    and the five network adapters.

    Python values are modelled as follows.
    - an [int] is a [Z]; a [str] is the list of its code points ([pystr]),
      except for the URL literals, which are only passed around and are kept
      as a [string]; [bytes] is a list of bytes;
    - an exception is a constructor of [exn], a call that may raise returns a
      [result];
    - [datetime.now()] is the number of microseconds since 2016-01-01T00:00:00
      on the naive local time scale the program uses;
    - effects (clock reads, network requests, log lines, sleeps, the render
      call and the cache file) are threaded through a state and error monad
      over [World]. *)

From Stdlib Require Import ZArith List String Lia Bool.
From stdpp Require Import base option list gmap strings.
Import ListNotations.

Local Open Scope Z_scope.
Set Warnings "-register-all".

(** ** Python values *)

Module Py.

Inductive exn : Type :=
| TimeoutException                (* httpx.TimeoutException and subclasses *)
| ConnectError                    (* httpx.ConnectError *)
| HTTPStatusError (status : Z)    (* raised by Response.raise_for_status *)
| RetryError (last_attempt : exn) (* tenacity.RetryError *)
| IndexError
| KeyError
| TypeError
| ValidationError                 (* pydantic *)
| JSONDecodeError
| ParseError                      (* xml.etree.ElementTree.ParseError *)
| OtherError (name : string).     (* any other exception class *)

Inductive result (A : Type) : Type :=
| Ok (a : A)
| Raise (e : exn).
Arguments Ok {A} a.
Arguments Raise {A} e.

Definition rbind {A B} (r : result A) (k : A -> result B) : result B :=
  match r with
  | Ok a => k a
  | Raise e => Raise e
  end.

(** A comprehension or generator consumed to its end: the elements are
    evaluated left to right and the first exception ends it. *)
Fixpoint rmap {A B} (f : A -> result B) (l : list A) : result (list B) :=
  match l with
  | [] => Ok []
  | x :: l' => rbind (f x) (fun y => rbind (rmap f l') (fun ys => Ok (y :: ys)))
  end.

(** [l[k]] on a Python list: a negative index counts from the end, anything
    outside [-len, len) raises IndexError. *)
Definition index {A} (l : list A) (k : Z) : result A :=
  let len := Z.of_nat (length l) in
  let k' := if k <? 0 then k + len else k in
  if (k' <? 0) || (len <=? k') then Raise IndexError
  else match l !! Z.to_nat k' with
       | Some x => Ok x
       | None => Raise IndexError
       end.

(** [range(start, stop, step)] for a positive step, which is what every
    call site of the program passes. *)
Definition range (start stop step : Z) : list Z :=
  map (fun k => start + Z.of_nat k * step)
      (seq 0 (Z.to_nat ((stop - start + step - 1) / step))).

(** [l[:n] if len(l) > n else l] *)
Definition first_at_most {A} (n : nat) (l : list A) : list A :=
  if (n <? length l)%nat then take n l else l.

End Py.
Import Py.

(** A Python [str] as the list of its code points. *)
Abbreviation pystr := (list N).

(** ** The festival calculator

    [favs_arr] and [favs_list] come from [config.py]: a flat list of integers
    (threshold, label index, threshold, label index, ...) and the list of
    festival names. *)

Section Festival.

Variable favs_arr : list Z.
Variable favs_list : list pystr.

(** The generator handed to [result.extend]: one pair per [j] of
    [range(0, 14, 2)]. *)
Definition festival_pair (n i j : Z) : result (Z * pystr) :=
  rbind (index favs_arr (i + j)) (fun threshold =>
  rbind (index favs_arr (i + j + 1)) (fun label =>
  rbind (index favs_list label) (fun name =>
  Ok (threshold - n, name)))).

Definition festival_window (n i : Z) : result (list (Z * pystr)) :=
  rmap (festival_pair n i) (range 0 14 2).

(** The [for i in range(0, len(favs_arr), 2)] loop, over the indices still
    to visit; [result] is still empty when the [if] fires, and the [break]
    leaves the loop right after the [extend]. *)
Fixpoint festival_scan (n : Z) (todo : list Z) : result (list (Z * pystr)) :=
  match todo with
  | [] => Ok []
  | i :: todo' =>
      rbind (index favs_arr i) (fun threshold =>
      if n <=? threshold then festival_window n i
      else festival_scan n todo')
  end.

(** [festival_calculation] once [n = (datetime.now() - base_date).days] has
    been read. *)
Definition festival_of_day (n : Z) : result (list (Z * pystr)) :=
  festival_scan n (range 0 (Z.of_nat (length favs_arr)) 2).

End Festival.

(** ** Data: strings, JSON, XML, responses *)

(** The [str] of an ASCII literal of the program. *)
Definition str (s : string) : pystr :=
  map (fun a => N.of_nat (Ascii.nat_of_ascii a)) (list_ascii_of_string s).
Arguments str : simpl never.

(** What [Response.json()] returns. An object is the list of its fields, one
    entry per key; a number keeps its literal. *)
Inductive json : Type :=
| JNull
| JBool (b : bool)
| JNumber (literal : string)
| JString (s : pystr)
| JArray (elements : list json)
| JObject (fields : list (pystr * json)).

Fixpoint dict_get {V} (fields : list (pystr * V)) (key : pystr) : option V :=
  match fields with
  | [] => None
  | (k, v) :: fields' => if decide (k = key) then Some v else dict_get fields' key
  end.

(** [x[key]] for a [str] key. *)
Definition getitem_key (x : json) (key : pystr) : result json :=
  match x with
  | JObject fields =>
      match dict_get fields key with
      | Some v => Ok v
      | None => Raise KeyError
      end
  | _ => Raise TypeError
  end.

(** [x[k]] for an [int] index. *)
Definition getitem_int (x : json) (k : Z) : result json :=
  match x with
  | JArray elements => index elements k
  | JString s => rbind (index s k) (fun c => Ok (JString [c]))
  | JObject _ => Raise KeyError
  | _ => Raise TypeError
  end.

(** [for item in x] with a body that subscripts [item] by a [str] key and
    collects the values: the list comprehension of [get_bili]. Iterating an
    object yields its keys and iterating a [str] its characters, on which
    the subscript raises. *)
Definition collect_key (x : json) (key : pystr) : result (list json) :=
  match x with
  | JArray elements => rmap (fun item => getitem_key item key) elements
  | JObject fields => rmap (fun kv => getitem_key (JString (fst kv)) key) fields
  | JString s => rmap (fun c => getitem_key (JString [c]) key) s
  | _ => Raise TypeError
  end.

(** Calling a pydantic model with the keyword arguments unpacked from [x]:
    [x] has to be a mapping, and its fields have to validate. *)
Definition construct {T} (validate : list (pystr * json) -> option T) (x : json)
  : result T :=
  match x with
  | JObject fields =>
      match validate fields with
      | Some model => Ok model
      | None => Raise ValidationError
      end
  | _ => Raise TypeError
  end.

(** An [xml.etree.ElementTree.Element]: tag, text, children in document
    order. *)
Inductive Element : Type :=
| Elem (tag : pystr) (text : option pystr) (children : list Element).

Definition tag_of (e : Element) : pystr := let 'Elem t _ _ := e in t.
Definition text_of (e : Element) : option pystr := let 'Elem _ t _ := e in t.
Definition children_of (e : Element) : list Element := let 'Elem _ _ c := e in c.

Definition has_tag (t : pystr) (e : Element) : bool := bool_decide (tag_of e = t).

(** [e.find(t)]: the first child with that tag, or None. *)
Definition find (t : pystr) (e : Element) : option Element :=
  List.find (has_tag t) (children_of e).

(** [root.findall("./a/b")]: the [b] children of the [a] children of the
    root, in document order. *)
Definition findall2 (a b : pystr) (root : Element) : list Element :=
  flat_map (fun c => List.filter (has_tag b) (children_of c))
           (List.filter (has_tag a) (children_of root)).

Record Response := mkResponse { status_code : Z; text : pystr }.

(** The models of [config.py], with the fields the program reads. *)
Record Hitokoto := mkHitokoto { hitokoto : pystr }.
Record SixNews := mkSixNews { news : list pystr }.
Record SixData := mkSixData { data : SixNews }.
Record AnimeItem := mkAnimeItem { name_cn : option pystr; name : pystr; image : pystr }.
Record Anime := mkAnime { items : list AnimeItem }.

(** The [data] dict handed to the template. *)
Record ReportData := mkReportData {
  data_festival : list (Z * pystr);
  data_hitokoto : pystr;
  data_bili : list json;
  data_six : list pystr;
  data_anime : list (pystr * pystr);
  data_it : list (option pystr);
  week : pystr;
  date : Z;
  zh_date : pystr
}.

(** ** The world the program runs in *)

Inductive Event : Type :=
| ERequest (url : string)               (* client.get(url) *)
| ELog (url : string) (cause : exn)     (* logger.error(...) *)
| ESleep (seconds : Z)                  (* tenacity's wait *)
| ERender (d : ReportData)              (* template_to_pic *)
| EWrite (day : Z).                     (* the cache file of that day written *)

(** [fs] maps a day (days since 2016-01-01, which names the file
    [REPORT_PATH / "<date>.png"]) to the content of its file; [ticks] counts
    the reads of the clock, [reqs] the requests sent; [trace] lists the
    effects, oldest first. *)
Record World := mkWorld {
  fs : gmap Z (list Byte.byte);
  ticks : nat;
  reqs : nat;
  trace : list Event
}.

(** Everything outside [data_source.py]: the clock, the network, the parsers
    of the libraries, the models and tables of [config.py], the lunar
    calendar and the renderer. *)
Record Env := mkEnv {
  clock : nat -> Z;
  transport : nat -> string -> result Response;
  json_loads : pystr -> option json;
  ET_fromstring : pystr -> option Element;
  Hitokoto_validate : list (pystr * json) -> option Hitokoto;
  SixData_validate : list (pystr * json) -> option SixData;
  Anime_validate : list (pystr * json) -> option Anime;
  favs_arr : list Z;
  favs_list : list pystr;
  ZhDate : Type;
  ZhDate_from_datetime : Z -> result ZhDate;
  ZhDate_chinese : ZhDate -> pystr;
  template_to_pic : ReportData -> result (list Byte.byte)
}.

Definition M (A : Type) : Type := World -> result A * World.

Definition ret {A} (a : A) : M A := fun w => (Ok a, w).
Definition raise {A} (e : exn) : M A := fun w => (Raise e, w).
Definition lift {A} (r : result A) : M A := fun w => (r, w).
Definition bind {A B} (m : M A) (k : A -> M B) : M B :=
  fun w =>
    match m w with
    | (Ok a, w') => k a w'
    | (Raise e, w') => (Raise e, w')
    end.

Declare Scope py_scope.
Delimit Scope py_scope with py.
Notation "x <- m ;; k" := (bind m (fun x => k))
  (at level 100, m at next level, right associativity) : py_scope.
Notation "m ;;; k" := (bind m (fun _ => k))
  (at level 100, right associativity) : py_scope.

Definition emit (e : Event) (w : World) : World :=
  mkWorld (fs w) (ticks w) (reqs w) (trace w ++ [e]).
Definition tick (w : World) : World :=
  mkWorld (fs w) (S (ticks w)) (reqs w) (trace w).
Definition sent (url : string) (w : World) : World :=
  mkWorld (fs w) (ticks w) (S (reqs w)) (trace w ++ [ERequest url]).
Definition written (day : Z) (content : list Byte.byte) (w : World) : World :=
  mkWorld (<[day := content]> (fs w)) (ticks w) (reqs w) (trace w ++ [EWrite day]).

(** ** Dates *)

Definition us_per_day : Z := 86400000000.

(** [(now - datetime(2016, 1, 1)).days], which is also the day of
    [now.date()] counted from 2016-01-01. *)
Definition days_since_base (now : Z) : Z := now / us_per_day.

(** [date.weekday()], Monday = 0; 2016-01-01 was a Friday. *)
Definition weekday_of_day (day : Z) : Z := (day + 4) mod 7.

(** [str.isspace] of one character. *)
Definition isspace (c : N) : bool :=
  ((9 <=? c) && (c <=? 13) || (28 <=? c) && (c <=? 32) || (c =? 133) || (c =? 160)
   || (c =? 5760) || (8192 <=? c) && (c <=? 8202) || (c =? 8232) || (c =? 8233)
   || (c =? 8239) || (c =? 8287) || (c =? 12288))%N.

(** [s.split()]: the maximal runs of characters that are not whitespace;
    [word] is the run being read, if any. *)
Fixpoint split_from (word : option pystr) (s : pystr) : list pystr :=
  match s with
  | [] => match word with Some t => [t] | None => [] end
  | c :: s' =>
      if isspace c
      then match word with
           | Some t => t :: split_from None s'
           | None => split_from None s'
           end
      else split_from (Some (match word with Some t => t ++ [c] | None => [c] end)) s'
  end.
Definition split (s : pystr) : list pystr := split_from None s.

(** [a or b] on strings where [a] may be None. *)
Definition str_or (a : option pystr) (b : pystr) : pystr :=
  match a with
  | Some (c :: a') => c :: a'
  | _ => b
  end.

(** [try: body except IndexError: handler] *)
Definition except_IndexError {A} (body handler : result A) : result A :=
  match body with
  | Raise IndexError => handler
  | _ => body
  end.

(** ** tenacity

    [retry(stop=stop_after_attempt(n), wait=wait_fixed(d), retry=p)] around
    [fn], with [reraise] left at its default (False): the call is attempted;
    a result, or an exception that [p] rejects, leaves at once; otherwise,
    when the attempt was the n-th, [RetryError] is raised from the last
    exception, and else the loop sleeps [d] and attempts again.
    [attempts_left] is n minus the number of the current attempt. *)
Module Tenacity.

Fixpoint retrying {A} (p : exn -> bool) (d : Z) (fn : M A) (attempts_left : nat)
  : M A :=
  fun w =>
    match fn w with
    | (Ok a, w1) => (Ok a, w1)
    | (Raise e, w1) =>
        if p e then
          match attempts_left with
          | O => (Raise (RetryError e), w1)
          | S k => retrying p d fn k (emit (ESleep d) w1)
          end
        else (Raise e, w1)
    end.

Definition retry {A} (stop_after_attempt : nat) (wait_fixed : Z)
    (retry_if : exn -> bool) (fn : M A) : M A :=
  retrying retry_if wait_fixed fn (stop_after_attempt - 1).

End Tenacity.

(** ** AsyncHttpx *)

Module AsyncHttpx.
Section WithEnv.

Variable env : Env.

(** [isinstance(e, (TimeoutException, ConnectError, HTTPStatusError))]: the
    tuple of the decorator and of the [except] clause. *)
Definition transient (e : exn) : bool :=
  match e with
  | TimeoutException | ConnectError | HTTPStatusError _ => true
  | _ => false
  end.

Definition raise_for_status (response : Response) : result unit :=
  if (200 <=? status_code response) && (status_code response <? 300)
  then Ok tt
  else Raise (HTTPStatusError (status_code response)).

(** The body of [get]: one request, the status check, and the [except]
    clause that logs and re-raises. *)
Definition get_once (url : string) : M Response :=
  fun w =>
    let w1 := sent url w in
    match rbind (transport env (reqs w) url)
                (fun response => rbind (raise_for_status response)
                                       (fun _ => Ok response)) with
    | Ok response => (Ok response, w1)
    | Raise e =>
        if transient e then (Raise e, emit (ELog url e) w1)
        else (Raise e, w1)
    end.

Definition get (url : string) : M Response :=
  Tenacity.retry 3 1 transient (get_once url).

End WithEnv.
End AsyncHttpx.

(** ** The clock and the cache file *)

Section Save.

Variable env : Env.

Local Open Scope py_scope.

(** [datetime.now()] *)
Definition datetime_now : M Z :=
  fun w => (Ok (clock env (ticks w)), tick w).

(** [save] reads the clock again for the name of the file. Opening and
    writing the file are taken to succeed. *)
Definition save (content : list Byte.byte) : M unit :=
  now <- datetime_now ;;
  fun w => (Ok tt, written (days_since_base now) content w).

End Save.

(** ** Report *)

Module Report.
Section WithEnv.

Variable env : Env.

Local Open Scope py_scope.

Definition hitokoto_url : string := "https://v1.hitokoto.cn/?c=a".
Definition six_url : string := "https://60s.viki.moe/?v2=1".
Definition game_url : string := "https://www.4gamers.com.tw/rss/latest-news".
Definition bili_url : string := "https://s.search.bilibili.com/main/hotword".
Definition it_url : string := "https://www.ithome.com/rss/".
Definition anime_url : string := "https://api.bgm.tv/calendar".

(** The [week] dict: the seven weekday labels, as code points. *)
Definition week (k : Z) : option pystr :=
  match k with
  | 0 => Some [19968%N]
  | 1 => Some [20108%N]
  | 2 => Some [19977%N]
  | 3 => Some [22235%N]
  | 4 => Some [20116%N]
  | 5 => Some [20845%N]
  | 6 => Some [26085%N]
  | _ => None
  end.

Definition file_content (day : Z) : M (option (list Byte.byte)) :=
  fun w => (Ok (fs w !! day), w).

Definition render (d : ReportData) : M (list Byte.byte) :=
  fun w => (template_to_pic env d, emit (ERender d) w).

Definition response_json (res : Response) : result json :=
  match json_loads env (text res) with
  | Some j => Ok j
  | None => Raise JSONDecodeError
  end.

Definition festival_calculation : M (list (Z * pystr)) :=
  now <- datetime_now env ;;
  lift (festival_of_day (favs_arr env) (favs_list env) (days_since_base now)).

Definition get_hitokoto : M pystr :=
  res <- AsyncHttpx.get env hitokoto_url ;;
  d <- lift (rbind (response_json res) (construct (Hitokoto_validate env))) ;;
  ret (hitokoto d).

Definition get_bili : M (list json) :=
  res <- AsyncHttpx.get env bili_url ;;
  d <- lift (response_json res) ;;
  lift (rbind (getitem_key d (str "list"))
              (fun l => collect_key l (str "keyword"))).

Definition get_six : M (list pystr) :=
  res <- AsyncHttpx.get env six_url ;;
  d <- lift (rbind (response_json res) (construct (SixData_validate env))) ;;
  ret (first_at_most 11 (news (data d))).

(** The [for item in root.findall("./channel/item")] loop of [get_it]. *)
Definition it_titles (root : Element) : list (option pystr) :=
  fold_left
    (fun titles item =>
       match find (str "title") item with
       | Some title_element => titles ++ [text_of title_element]
       | None => titles
       end)
    (findall2 (str "channel") (str "item") root) [].

Definition get_it : M (list (option pystr)) :=
  res <- AsyncHttpx.get env it_url ;;
  root <- lift (match ET_fromstring env (text res) with
                | Some root => Ok root
                | None => Raise ParseError
                end) ;;
  ret (first_at_most 11 (it_titles root)).

(** The [Anime] model built from element [k] of [res.json()]. *)
Definition anime_at (res : Response) (k : Z) : result Anime :=
  rbind (rbind (response_json res) (fun j => getitem_int j k))
        (construct (Anime_validate env)).

Definition select_anime (res : Response) (weekday : Z) : result Anime :=
  except_IndexError (anime_at res weekday) (anime_at res (-1)).

Definition anime_pairs (anime : Anime) : list (pystr * pystr) :=
  map (fun d => (str_or (name_cn d) (name d), image d)) (items anime).

Definition get_anime : M (list (pystr * pystr)) :=
  res <- AsyncHttpx.get env anime_url ;;
  now <- datetime_now env ;;
  anime <- lift (select_anime res (weekday_of_day (days_since_base now))) ;;
  ret (first_at_most 8 (anime_pairs anime)).

Definition get_report_image : M (list Byte.byte) :=
  now <- datetime_now env ;;
  let file := days_since_base now in
  cached <- file_content file ;;
  match cached with
  | Some content => ret content
  | None =>
      zhdata <- lift (ZhDate_from_datetime env now) ;;
      festival <- festival_calculation ;;
      quote <- get_hitokoto ;;
      bili <- get_bili ;;
      six <- get_six ;;
      anime <- get_anime ;;
      it <- get_it ;;
      label <- lift (match week (weekday_of_day file) with
                     | Some l => Ok l
                     | None => Raise KeyError
                     end) ;;
      lunar <- lift (rbind (index (split (ZhDate_chinese env zhdata)) 0)
                           (fun token => Ok (drop 5 token))) ;;
      image_bytes <- render (mkReportData festival quote bili six anime it
                                          label file lunar) ;;
      save env image_bytes ;;;
      ret image_bytes
  end.

End WithEnv.
End Report.

(** ** Sample environments

    Concrete clocks, networks and tables on which the functions above can be
    run. Every response carries the requested URL as its text, and the
    parsers map that text to the body configured for the URL. *)

Module Sample.

Definition world0 : World := mkWorld ∅ 0 0 [].

Definition echo (status : Z) (url : string) : result Response :=
  Ok (mkResponse status (str url)).

Definition always_ok (k : nat) (url : string) : result Response := echo 200 url.
Definition always_timeout (k : nat) (url : string) : result Response :=
  Raise TimeoutException.
(** The first two requests time out, the third one is answered. *)
Definition third_time_lucky (k : nat) (url : string) : result Response :=
  if (k <? 2)%nat then Raise TimeoutException else echo 200 url.

Definition keyword (s : string) : json := JObject [(str "keyword", JString (str s))].
Definition hotword (words : list string) : json :=
  JObject [(str "list", JArray (map keyword words))].

Definition twelve : list string :=
  ["k01"; "k02"; "k03"; "k04"; "k05"; "k06"; "k07"; "k08"; "k09"; "k10"; "k11"; "k12"].

Definition quote_body : json := JObject [(str "hitokoto", JString (str "carpe diem"))].
Definition six_body : json :=
  JObject [(str "data", JObject [(str "news", JArray (map (fun s => JString (str s)) twelve))])].

Definition bangumi (s : string) : json :=
  JObject [(str "name", JString (str s)); (str "name_cn", JString []);
           (str "image", JString (str "cover.png"))].
Definition weekday_entry (titles : list string) : json :=
  JObject [(str "items", JArray (map bangumi titles))].
(** Three weekday entries only: Monday, Tuesday, Wednesday. *)
Definition short_calendar : json :=
  JArray [weekday_entry ["mon"]; weekday_entry ["tue"];
          weekday_entry ["w1"; "w2"; "w3"; "w4"; "w5"; "w6"; "w7"; "w8"; "w9"]].

Definition title (s : string) : Element := Elem (str "title") (Some (str s)) [].
Definition item (s : string) : Element :=
  Elem (str "item") None [title s; Elem (str "link") (Some (str "http://x")) []].
Definition untitled : Element := Elem (str "item") None [Elem (str "link") None []].
Definition rss (entries : list Element) : Element :=
  Elem (str "rss") None [Elem (str "channel") None (title "feed" :: entries)].
Definition feed : Element :=
  rss (item "t01" :: untitled :: map item (tail twelve) ++ [item "t13"; item "t14"]).

Definition as_str (j : json) : option pystr :=
  match j with JString s => Some s | _ => None end.
Fixpoint all_some {A} (l : list (option A)) : option (list A) :=
  match l with
  | [] => Some []
  | Some x :: l' => option_map (cons x) (all_some l')
  | None :: _ => None
  end.

Definition hitokoto_of (fields : list (pystr * json)) : option Hitokoto :=
  match dict_get fields (str "hitokoto") with
  | Some (JString s) => Some (mkHitokoto s)
  | _ => None
  end.
Definition six_of (fields : list (pystr * json)) : option SixData :=
  match dict_get fields (str "data") with
  | Some (JObject inner) =>
      match dict_get inner (str "news") with
      | Some (JArray l) => option_map (fun n => mkSixData (mkSixNews n)) (all_some (map as_str l))
      | _ => None
      end
  | _ => None
  end.
Definition anime_item_of (j : json) : option AnimeItem :=
  match j with
  | JObject f =>
      match dict_get f (str "name"), dict_get f (str "image") with
      | Some (JString n), Some (JString i) =>
          Some (mkAnimeItem (match dict_get f (str "name_cn") with
                             | Some (JString c) => Some c
                             | _ => None
                             end) n i)
      | _, _ => None
      end
  | _ => None
  end.
Definition anime_of (fields : list (pystr * json)) : option Anime :=
  match dict_get fields (str "items") with
  | Some (JArray l) => option_map mkAnime (all_some (map anime_item_of l))
  | _ => None
  end.

Definition png (d : ReportData) : list Byte.byte :=
  [Byte.x89; Byte.x50; Byte.x4e; Byte.x47;
   default Byte.x00 (Byte.of_N (N.of_nat (length (data_bili d)) mod 256))].

(** Thresholds 10, 20, ..., 90, each followed by a label index. *)
Definition thresholds : list Z :=
  [10; 0; 20; 1; 30; 2; 40; 3; 50; 4; 60; 5; 70; 6; 80; 0; 90; 1].
Definition labels : list pystr :=
  map str ["new year"; "spring"; "tomb"; "labour"; "dragon"; "moon"; "national"]%string.

Definition make (clk : nat -> Z) (net : nat -> string -> result Response)
    (bili anime : option json) (arr : list Z) : Env :=
  {| clock := clk;
     transport := net;
     json_loads := fun t =>
       if decide (t = str Report.bili_url) then bili
       else if decide (t = str Report.anime_url) then anime
       else if decide (t = str Report.hitokoto_url) then Some quote_body
       else if decide (t = str Report.six_url) then Some six_body
       else None;
     ET_fromstring := fun t =>
       if decide (t = str Report.it_url) then Some feed else None;
     Hitokoto_validate := hitokoto_of;
     SixData_validate := six_of;
     Anime_validate := anime_of;
     favs_arr := arr;
     favs_list := labels;
     ZhDate := pystr;
     ZhDate_from_datetime := fun _ => Ok (str "2016y-11m-22d rest");
     ZhDate_chinese := fun z => z;
     template_to_pic := fun d => Ok (png d) |}.

(** Noon of day 15 (2016-01-16, a Saturday) at every read of the clock. *)
Definition noon15 (k : nat) : Z := 15 * us_per_day + us_per_day / 2.

Definition env : Env :=
  make noon15 always_ok (Some (hotword twelve)) (Some short_calendar) thresholds.
Definition env_retry : Env :=
  make noon15 third_time_lucky (Some (hotword twelve)) (Some short_calendar) thresholds.
Definition env_down : Env :=
  make noon15 always_timeout (Some (hotword twelve)) (Some short_calendar) thresholds.
Definition env_no_anime : Env :=
  make noon15 always_ok (Some (hotword twelve)) (Some (JArray [])) thresholds.
(** Day 85: the first block at or after it starts at index 16, two elements
    before the end of the table. *)
Definition env_late : Env :=
  make (fun _ => 85 * us_per_day) always_ok (Some (hotword twelve)) (Some short_calendar)
       thresholds.
Definition env_after : Env :=
  make (fun _ => 95 * us_per_day) always_ok (Some (hotword twelve)) (Some short_calendar)
       thresholds.

(** Variations of an environment: another clock, other parsed bodies,
    another parsed feed, a lunar calendar that rejects the date. *)
Definition with_clock (e : Env) (clk : nat -> Z) : Env :=
  mkEnv clk (transport e) (json_loads e) (ET_fromstring e) (Hitokoto_validate e)
        (SixData_validate e) (Anime_validate e) (favs_arr e) (favs_list e)
        (ZhDate e) (ZhDate_from_datetime e) (ZhDate_chinese e) (template_to_pic e).
Definition with_bodies (e : Env) (loads : pystr -> option json) : Env :=
  mkEnv (clock e) (transport e) loads (ET_fromstring e) (Hitokoto_validate e)
        (SixData_validate e) (Anime_validate e) (favs_arr e) (favs_list e)
        (ZhDate e) (ZhDate_from_datetime e) (ZhDate_chinese e) (template_to_pic e).
Definition with_feed (e : Env) (root : Element) : Env :=
  mkEnv (clock e) (transport e) (json_loads e) (fun _ => Some root) (Hitokoto_validate e)
        (SixData_validate e) (Anime_validate e) (favs_arr e) (favs_list e)
        (ZhDate e) (ZhDate_from_datetime e) (ZhDate_chinese e) (template_to_pic e).
Definition without_lunar (e : Env) : Env :=
  mkEnv (clock e) (transport e) (json_loads e) (ET_fromstring e) (Hitokoto_validate e)
        (SixData_validate e) (Anime_validate e) (favs_arr e) (favs_list e)
        (ZhDate e) (fun _ => Raise (OtherError "date out of range")) (ZhDate_chinese e)
        (template_to_pic e).

(** One second before the midnight that ends day 15 at the first three
    reads of the clock, one second after it from the fourth read on. *)
Definition around_midnight (k : nat) : Z :=
  if (k <? 3)%nat then 16 * us_per_day - 1000000 else 16 * us_per_day + 1000000.
Definition env_midnight : Env := with_clock env around_midnight.

(** Every answer has status 404. *)
Definition always_404 (k : nat) (url : string) : result Response := echo 404 url.
Definition env_404 : Env :=
  make noon15 always_404 (Some (hotword twelve)) (Some short_calendar) thresholds.

(** A quote body that is an array, and one without the expected field. *)
Definition env_quote_array : Env := with_bodies env (fun _ => Some (JArray [])).
Definition env_quote_other : Env :=
  with_bodies env (fun _ => Some (JObject [(str "text", JString (str "carpe diem"))])).

(** A trending body whose second element has no keyword. *)
Definition env_no_keyword : Env :=
  with_bodies env (fun _ =>
    Some (JObject [(str "list",
                    JArray (map JObject [[(str "keyword", JString (str "k01"))];
                                         [(str "word", JString (str "k02"))];
                                         [(str "keyword", JString (str "k03"))]]))])).

(** A calendar of seven entries whose Saturday entry is a number. *)
Definition env_bad_saturday : Env :=
  with_bodies env (fun _ =>
    Some (JArray [weekday_entry ["mon"]; weekday_entry ["tue"]; weekday_entry ["wed"];
                  weekday_entry ["thu"]; weekday_entry ["fri"]; JNumber "6";
                  weekday_entry ["sun"]])).

(** A feed whose second entry has an empty title element. *)
Definition env_empty_title : Env :=
  with_feed env (rss [item "t01"; Elem (str "item") None [Elem (str "title") None []];
                      item "t03"]).

(** A table that ends inside the window of its only block. *)
Definition env_short_table : Env :=
  make noon15 always_ok (Some (hotword twelve)) (Some short_calendar) [20; 0; 30; 1].

(** Of every three requests, the first two time out and the third one is
    answered. *)
Definition two_in_three_fail (k : nat) (url : string) : result Response :=
  if (k mod 3 =? 2)%nat then echo 200 url else Raise TimeoutException.
Definition env_flaky : Env :=
  make noon15 two_in_three_fail (Some (hotword twelve)) (Some short_calendar) thresholds.

End Sample.

(** * The vocabulary of the properties *)

(** Block [k] (the pair at indices [2k], [2k+1]) is the first block whose
    threshold is at least [n]. *)
Definition first_block (favs_arr : list Z) (n : Z) (k : nat) : Prop :=
  (exists t, favs_arr !! (2 * k)%nat = Some t /\ n <= t) /\
  (forall k' t, (k' < k)%nat -> favs_arr !! (2 * k')%nat = Some t -> t < n).

(** How one attempt ends, seen from outside. *)
Inductive attempt_outcome : Type :=
| Succeeds (response : Response)
| FailsTransient (e : exn)   (* timeout, connection failure, error status *)
| FailsOther (e : exn).

(** The end of the attempt that receives [answer] from the network: a
    response whose status is not 2xx fails the status check. *)
Definition outcome_of (answer : result Response) : attempt_outcome :=
  match answer with
  | Ok response =>
      if (200 <=? status_code response) && (status_code response <? 300)
      then Succeeds response
      else FailsTransient (HTTPStatusError (status_code response))
  | Raise TimeoutException => FailsTransient TimeoutException
  | Raise ConnectError => FailsTransient ConnectError
  | Raise (HTTPStatusError status) => FailsTransient (HTTPStatusError status)
  | Raise e => FailsOther e
  end.

(** What a failed attempt that is retried leaves in the trace. *)
Definition retried (url : string) (e : exn) : list Event :=
  [ERequest url; ELog url e; ESleep 1].

(** What the last attempt leaves in the trace. *)
Definition last_attempt (url : string) (final : attempt_outcome) : list Event :=
  match final with
  | FailsTransient e => [ERequest url; ELog url e]
  | _ => [ERequest url]
  end.

(** What the call returns or raises after its last attempt. *)
Definition propagated (final : attempt_outcome) : result Response :=
  match final with
  | Succeeds response => Ok response
  | FailsTransient e => Raise (RetryError e)
  | FailsOther e => Raise e
  end.

(** The events of the network: requests, log lines and sleeps. *)
Definition network_event (ev : Event) : Prop :=
  match ev with
  | ERequest _ | ELog _ _ | ESleep _ => True
  | _ => False
  end.

(** [w'] comes after [w] with the same files, and with network events only
    in between. *)
Definition reaches (w w' : World) : Prop :=
  fs w' = fs w /\ (ticks w <= ticks w')%nat /\ (reqs w <= reqs w')%nat /\
  exists evs, trace w' = trace w ++ evs /\ Forall network_event evs.

(** A computation whose only effects are reads of the clock and network
    events. *)
Definition network_only {A} (m : M A) : Prop :=
  forall w r w', m w = (r, w') -> reaches w w'.

(** The title text of a feed entry: [None] when the entry has no [title]
    child, [Some t] with [t] the text of the first one otherwise ([t] is
    the [text] attribute, itself None for an empty element). *)
Definition entry_title (entry : Element) : option (option pystr) :=
  text_of <$> find (str "title") entry.

(** The entries of a feed: the [item] children of the [channel] children of
    the root, in document order. *)
Definition entries (root : Element) : list Element :=
  findall2 (str "channel") (str "item") root.

(** One of the six sources of the report, reached after those before it
    have returned, raises [e] and leaves the world [w']. *)
Inductive adapter_fails (env : Env) (w0 : World) (e : exn) (w' : World) : Prop :=
| fails_festival :
    Report.festival_calculation env w0 = (Raise e, w') ->
    adapter_fails env w0 e w'
| fails_hitokoto festival w1 :
    Report.festival_calculation env w0 = (Ok festival, w1) ->
    Report.get_hitokoto env w1 = (Raise e, w') ->
    adapter_fails env w0 e w'
| fails_bili festival w1 quote w2 :
    Report.festival_calculation env w0 = (Ok festival, w1) ->
    Report.get_hitokoto env w1 = (Ok quote, w2) ->
    Report.get_bili env w2 = (Raise e, w') ->
    adapter_fails env w0 e w'
| fails_six festival w1 quote w2 bili w3 :
    Report.festival_calculation env w0 = (Ok festival, w1) ->
    Report.get_hitokoto env w1 = (Ok quote, w2) ->
    Report.get_bili env w2 = (Ok bili, w3) ->
    Report.get_six env w3 = (Raise e, w') ->
    adapter_fails env w0 e w'
| fails_anime festival w1 quote w2 bili w3 six w4 :
    Report.festival_calculation env w0 = (Ok festival, w1) ->
    Report.get_hitokoto env w1 = (Ok quote, w2) ->
    Report.get_bili env w2 = (Ok bili, w3) ->
    Report.get_six env w3 = (Ok six, w4) ->
    Report.get_anime env w4 = (Raise e, w') ->
    adapter_fails env w0 e w'
| fails_it festival w1 quote w2 bili w3 six w4 anime w5 :
    Report.festival_calculation env w0 = (Ok festival, w1) ->
    Report.get_hitokoto env w1 = (Ok quote, w2) ->
    Report.get_bili env w2 = (Ok bili, w3) ->
    Report.get_six env w3 = (Ok six, w4) ->
    Report.get_anime env w4 = (Ok anime, w5) ->
    Report.get_it env w5 = (Raise e, w') ->
    adapter_fails env w0 e w'.

(** What a run of the pipeline from a computation [m] can do to the
    cache: a failure leaves the files as they were; a result [b] was
    rendered from some data [d], after network events only, and then
    written to the file of the day read at that moment. *)
Definition caches_result (env : Env) (m : M (list Byte.byte)) : Prop :=
  forall w r w', m w = (r, w') ->
    match r with
    | Raise _ => fs w' = fs w
    | Ok b =>
        exists w2 d,
          reaches w w2 /\
          template_to_pic env d = Ok b /\
          w' = written (days_since_base (clock env (ticks w2))) b
                       (tick (emit (ERender d) w2))
    end.

(** The number of sleeps among some events. *)
Definition sleeps (evs : list Event) : nat :=
  length (List.filter (fun ev => match ev with ESleep _ => true | _ => false end) evs).

(** A computation that sends at most [n] requests, reads the clock at most
    [t] times and sleeps at most [s] times. *)
Definition costs {A} (n t s : nat) (m : M A) : Prop :=
  forall w r w', m w = (r, w') ->
    (reqs w' <= reqs w + n)%nat /\ (ticks w' <= ticks w + t)%nat /\
    exists evs, trace w' = trace w ++ evs /\ (sleeps evs <= s)%nat.

(** From the world [w], the computation [m] causes the traffic of one call of
    [AsyncHttpx.get] on [url] and no other, and a failure of that call is
    the failure of [m]. *)
Definition fetches_once {A} (env : Env) (url : string) (m : M A) (w : World) : Prop :=
  reqs (snd (m w)) = reqs (snd (AsyncHttpx.get env url w)) /\
  trace (snd (m w)) = trace (snd (AsyncHttpx.get env url w)) /\
  forall e, fst (AsyncHttpx.get env url w) = Raise e -> fst (m w) = Raise e.

(** * Properties *)

(** Case analysis on the integer comparisons of the goal. *)
Ltac case_cmp :=
  repeat match goal with
         | |- context [Z.ltb ?a ?b] => destruct (Z.ltb_spec a b); try lia
         | |- context [Z.leb ?a ?b] => destruct (Z.leb_spec a b); try lia
         end.

(** ** Python indexing *)

Section IndexFacts.

Context {A : Type}.
Implicit Types (l : list A) (k : Z) (i : nat).

Lemma index_of_nat l i :
  index l (Z.of_nat i) =
  match l !! i with Some x => Ok x | None => Raise IndexError end.
Proof.
  unfold index. cbn zeta. case_cmp; cbn.
  - rewrite lookup_ge_None_2 by lia. reflexivity.
  - rewrite Nat2Z.id. reflexivity.
Qed.

Lemma index_raises l k e : index l k = Raise e -> e = IndexError.
Proof.
  unfold index. cbn zeta.
  destruct (_ || _); [congruence|].
  destruct (l !! _); congruence.
Qed.

Lemma index_in_range l k x :
  index l k = Ok x -> 0 <= k -> k < Z.of_nat (length l).
Proof.
  unfold index. cbn zeta. intros H Hk. revert H. case_cmp; cbn; congruence.
Qed.

Lemma index_last l x : index (l ++ [x]) (-1) = Ok x.
Proof.
  unfold index. cbn zeta. rewrite length_app, Nat2Z.inj_add. cbn [length].
  change (-1 <? 0) with true. cbv iota. case_cmp. cbn [orb].
  replace (Z.to_nat (-1 + (Z.of_nat (length l) + Z.of_nat 1))) with (length l) by lia.
  rewrite list_lookup_middle by reflexivity. reflexivity.
Qed.

Lemma index_nil k : index (@nil A) k = Raise IndexError.
Proof. unfold index. cbn. case_cmp; reflexivity. Qed.

End IndexFacts.

Lemma range_blocks (len : Z) :
  range 0 len 2 = map (fun k => Z.of_nat k * 2) (seq 0 (Z.to_nat ((len + 1) / 2))).
Proof.
  unfold range. replace (len - 0 + 2 - 1) with (len + 1) by lia.
  apply map_ext. intros k. lia.
Qed.

Lemma rmap_raises {A B} (f : A -> result B) (l : list A) e :
  (forall x e', f x = Raise e' -> e' = e) ->
  forall e', rmap f l = Raise e' -> e' = e.
Proof.
  intros Hf. induction l as [|x l IH]; intros e' H; cbn in H; [discriminate|].
  destruct (f x) eqn:Hx; cbn in H.
  - destruct (rmap f l); cbn in H; [discriminate|].
    apply IH. congruence.
  - apply (Hf x). congruence.
Qed.

Lemma rmap_Ok_inv {A B} (f : A -> result B) (l : list A) ys x :
  rmap f l = Ok ys -> In x l -> exists y, f x = Ok y.
Proof.
  revert ys. induction l as [|a l IH]; intros ys H Hin; [destruct Hin|].
  cbn in H. destruct (f a) eqn:Ha; cbn in H; [|discriminate].
  destruct (rmap f l) eqn:Hl; cbn in H; [|discriminate].
  destruct Hin as [->|Hin]; eauto.
Qed.

(** ** The festival calculator *)

Section FestivalFacts.

Variable favs_arr : list Z.
Variable favs_list : list pystr.

Lemma festival_pair_raises n i j e :
  festival_pair favs_arr favs_list n i j = Raise e -> e = IndexError.
Proof.
  unfold festival_pair. intros H.
  destruct (index favs_arr (i + j)) as [threshold|e1] eqn:H1; cbn in H;
    [|apply index_raises in H1; congruence].
  destruct (index favs_arr (i + j + 1)) as [label|e2] eqn:H2; cbn in H;
    [|apply index_raises in H2; congruence].
  destruct (index favs_list label) as [name|e3] eqn:H3; cbn in H;
    [discriminate|apply index_raises in H3; congruence].
Qed.

Lemma festival_window_raises n i e :
  festival_window favs_arr favs_list n i = Raise e -> e = IndexError.
Proof.
  unfold festival_window. apply rmap_raises.
  intros j e'. apply festival_pair_raises.
Qed.

Lemma festival_window_in_range n i l :
  0 <= i ->
  festival_window favs_arr favs_list n i = Ok l ->
  i + 14 <= Z.of_nat (length favs_arr).
Proof.
  intros Hi H. unfold festival_window in H.
  destruct (rmap_Ok_inv _ _ _ 12 H) as [y Hy].
  { vm_compute. tauto. }
  unfold festival_pair in Hy.
  destruct (index favs_arr (i + 12)); cbn in Hy; [|discriminate].
  destruct (index favs_arr (i + 12 + 1)) eqn:H13; cbn in Hy; [|discriminate].
  apply index_in_range in H13; lia.
Qed.

Lemma festival_scan_first n k a b :
  (a <= k < a + b)%nat ->
  (exists t, favs_arr !! (2 * k)%nat = Some t /\ n <= t) ->
  (forall k' t, (a <= k' < k)%nat -> favs_arr !! (2 * k')%nat = Some t -> t < n) ->
  festival_scan favs_arr favs_list n (map (fun j => Z.of_nat j * 2) (seq a b)) =
  festival_window favs_arr favs_list n (Z.of_nat (2 * k)).
Proof.
  intros Hk [t [Ht Hn]]. revert a Hk.
  induction b as [|b IH]; intros a Hk Hlow; [lia|].
  cbn [seq map festival_scan].
  replace (Z.of_nat a * 2) with (Z.of_nat (2 * a)) by lia.
  rewrite index_of_nat.
  destruct (decide (a = k)) as [->|Hne].
  - rewrite Ht. cbn. destruct (Z.leb_spec n t); [reflexivity|lia].
  - assert (2 * a < length favs_arr)%nat as Hlt.
    { apply lookup_lt_Some in Ht. lia. }
    destruct (lookup_lt_is_Some_2 _ _ Hlt) as [t' Ht'].
    rewrite Ht'. cbn.
    assert (t' < n) by (apply (Hlow a); [lia|assumption]).
    destruct (Z.leb_spec n t'); [lia|].
    apply IH; [lia|]. intros k' t'' Hk'. apply Hlow. lia.
Qed.

Lemma festival_scan_none n a b :
  (2 * (a + b) <= length favs_arr + 1)%nat ->
  (forall k t, favs_arr !! (2 * k)%nat = Some t -> t < n) ->
  festival_scan favs_arr favs_list n (map (fun j => Z.of_nat j * 2) (seq a b)) = Ok [].
Proof.
  intros Hlen Hall. revert a Hlen.
  induction b as [|b IH]; intros a Hlen; [reflexivity|].
  cbn [seq map festival_scan].
  replace (Z.of_nat a * 2) with (Z.of_nat (2 * a)) by lia.
  rewrite index_of_nat.
  assert (2 * a < length favs_arr)%nat as Hlt by lia.
  destruct (lookup_lt_is_Some_2 _ _ Hlt) as [t' Ht'].
  rewrite Ht'. cbn.
  assert (t' < n) by (apply (Hall a); assumption).
  destruct (Z.leb_spec n t'); [lia|].
  apply IH. lia.
Qed.

Lemma festival_of_day_first n k :
  first_block favs_arr n k ->
  festival_of_day favs_arr favs_list n =
  festival_window favs_arr favs_list n (Z.of_nat (2 * k)).
Proof.
  intros [Hk Hlow]. unfold festival_of_day. rewrite range_blocks.
  apply festival_scan_first; [|assumption|].
  - destruct Hk as [t [Ht _]]. apply lookup_lt_Some in Ht.
    split; [lia|]. cbn [Nat.add].
    apply Nat2Z.inj_lt. rewrite Z2Nat.id by (apply Z.div_pos; lia).
    assert (Z.of_nat k + 1 <= (Z.of_nat (length favs_arr) + 1) / 2); [|lia].
    apply Z.div_le_lower_bound; lia.
  - intros k' t Hk'. apply Hlow. lia.
Qed.

Lemma festival_of_day_none n :
  (forall k t, favs_arr !! (2 * k)%nat = Some t -> t < n) ->
  festival_of_day favs_arr favs_list n = Ok [].
Proof.
  intros Hall. unfold festival_of_day. rewrite range_blocks.
  apply festival_scan_none; [|assumption].
  cbn [Nat.add].
  assert (Z.of_nat (Z.to_nat ((Z.of_nat (length favs_arr) + 1) / 2)) * 2
          <= Z.of_nat (length favs_arr) + 1); [|lia].
  rewrite Z2Nat.id by (apply Z.div_pos; lia).
  rewrite Z.mul_comm. apply Z.mul_div_le. lia.
Qed.

Lemma festival_window_pairs n k (T L : nat -> Z) (Nm : nat -> pystr) :
  (forall j, (j < 7)%nat ->
     favs_arr !! (2 * k + 2 * j)%nat = Some (T j) /\
     favs_arr !! (2 * k + 2 * j + 1)%nat = Some (L j) /\
     index favs_list (L j) = Ok (Nm j)) ->
  festival_window favs_arr favs_list n (Z.of_nat (2 * k)) =
  Ok (map (fun j => (T j - n, Nm j)) (seq 0 7)).
Proof.
  intros H. unfold festival_window.
  change (range 0 14 2) with (map (fun j => Z.of_nat (2 * j)) (seq 0 7)).
  assert (forall j, (j < 7)%nat ->
            festival_pair favs_arr favs_list n (Z.of_nat (2 * k)) (Z.of_nat (2 * j))
            = Ok (T j - n, Nm j)) as Hp.
  { intros j Hj. destruct (H j Hj) as (H1 & H2 & H3). unfold festival_pair.
    replace (Z.of_nat (2 * k) + Z.of_nat (2 * j)) with (Z.of_nat (2 * k + 2 * j)) by lia.
    replace (Z.of_nat (2 * k + 2 * j) + 1) with (Z.of_nat (2 * k + 2 * j + 1)) by lia.
    rewrite !index_of_nat, H1, H2. cbn. rewrite H3. reflexivity. }
  cbn [seq map rmap].
  rewrite !Hp by lia. reflexivity.
Qed.

End FestivalFacts.

(** ** The festival calculator inside the pipeline *)

Section FestivalCalculation.

Variable env : Env.

Lemma festival_calculation_run w :
  Report.festival_calculation env w =
  (festival_of_day (favs_arr env) (favs_list env)
                   (days_since_base (clock env (ticks w))), tick w).
Proof. reflexivity. Qed.

Lemma days_since_base_whole now :
  us_per_day * days_since_base now <= now < us_per_day * (days_since_base now + 1).
Proof.
  unfold days_since_base, us_per_day.
  pose proof (Z.div_mod now 86400000000 ltac:(lia)).
  pose proof (Z.mod_pos_bound now 86400000000 ltac:(lia)). lia.
Qed.

(** C2. With [n] the whole days elapsed since 2016-01-01 at the moment
    [festival_calculation] reads the clock: when block [k] (index [i = 2k])
    is the first block of [favs_arr] whose threshold is at least [n], and
    [T j], [L j], [Nm j] are the values of [favs_arr[i+2j]],
    [favs_arr[i+2j+1]] and [favs_list[favs_arr[i+2j+1]]] for [j = 0..6], the
    call returns exactly the seven pairs [(T j - n, Nm j)], nothing from
    any later block; when no block has a threshold of at least [n], it
    returns the empty list, without raising. *)
Theorem festival_calculation_first_window w :
  let now := clock env (ticks w) in
  let n := days_since_base now in
  us_per_day * n <= now < us_per_day * (n + 1) /\
  (forall (k : nat) (T L : nat -> Z) (Nm : nat -> pystr),
      first_block (favs_arr env) n k ->
      (forall j, (j < 7)%nat ->
         favs_arr env !! (2 * k + 2 * j)%nat = Some (T j) /\
         favs_arr env !! (2 * k + 2 * j + 1)%nat = Some (L j) /\
         index (favs_list env) (L j) = Ok (Nm j)) ->
      fst (Report.festival_calculation env w) =
      Ok (map (fun j => (T j - n, Nm j)) [0; 1; 2; 3; 4; 5; 6]%nat)) /\
  ((forall (k : nat) t, favs_arr env !! (2 * k)%nat = Some t -> t < n) ->
   fst (Report.festival_calculation env w) = Ok []).
Proof.
  intros now n. split; [apply days_since_base_whole|]. split.
  - intros k T L Nm Hfirst Hwin. rewrite festival_calculation_run. cbn [fst].
    fold now. fold n. rewrite (festival_of_day_first _ _ _ _ Hfirst).
    rewrite (festival_window_pairs _ _ _ _ T L Nm Hwin). reflexivity.
  - intros Hnone. rewrite festival_calculation_run. cbn [fst].
    apply festival_of_day_none. exact Hnone.
Qed.

(** C10. When block [k] (index [i = 2k]) is the first block whose threshold
    is at least [n]: if fewer than 14 elements remain from [i] on, the call
    raises IndexError; and whenever the call returns a list, the indices
    [i .. i+13] all exist in [favs_arr]. *)
Theorem festival_calculation_needs_full_window w (k : nat) :
  first_block (favs_arr env) (days_since_base (clock env (ticks w))) k ->
  ((length (favs_arr env) < 2 * k + 14)%nat ->
   fst (Report.festival_calculation env w) = Raise IndexError) /\
  (forall l, fst (Report.festival_calculation env w) = Ok l ->
             (2 * k + 14 <= length (favs_arr env))%nat).
Proof.
  intros Hfirst. rewrite festival_calculation_run. cbn [fst].
  rewrite (festival_of_day_first _ _ _ _ Hfirst).
  assert (forall l, festival_window (favs_arr env) (favs_list env)
                      (days_since_base (clock env (ticks w))) (Z.of_nat (2 * k)) = Ok l ->
                    (2 * k + 14 <= length (favs_arr env))%nat) as Hok.
  { intros l Hl. apply festival_window_in_range in Hl; lia. }
  split; [|exact Hok].
  intros Hshort.
  destruct (festival_window _ _ _ _) as [l|e] eqn:Hw.
  - specialize (Hok l eq_refl). lia.
  - f_equal. eapply festival_window_raises. exact Hw.
Qed.

End FestivalCalculation.

(** C2 on the sample table, on day 15 (first block: 20 at index 2) and on
    day 95 (past every threshold). *)
Lemma festival_calculation_first_window_witness :
  fst (Report.festival_calculation Sample.env Sample.world0) =
    Ok [(5, str "spring"); (15, str "tomb"); (25, str "labour"); (35, str "dragon");
        (45, str "moon"); (55, str "national"); (65, str "new year")] /\
  fst (Report.festival_calculation Sample.env_after Sample.world0) = Ok [].
Proof.
  split.
  - apply (proj1 (proj2 (festival_calculation_first_window Sample.env Sample.world0))
             1%nat
             (fun j => nth j [20; 30; 40; 50; 60; 70; 80] 0)
             (fun j => nth j [1; 2; 3; 4; 5; 6; 0] 0)
             (fun j => nth j (map str ["spring"; "tomb"; "labour"; "dragon"; "moon";
                                       "national"; "new year"]%string) [])).
    + split.
      * exists 20. split; [reflexivity|vm_compute; discriminate].
      * intros k' t Hk'. assert (k' = 0%nat) as -> by lia.
        intros H; vm_compute in H; injection H as <-; reflexivity.
    + intros j Hj.
      do 7 (destruct j as [|j]; [repeat split; reflexivity|]). lia.
  - apply (proj2 (proj2 (festival_calculation_first_window Sample.env_after Sample.world0))).
    intros k t.
    do 9 (destruct k as [|k]; [intros H; vm_compute in H; injection H as <-; reflexivity|]).
    intros H. apply lookup_lt_Some in H.
    change (length (favs_arr Sample.env_after)) with 18%nat in H. lia.
Defined.

(** C10 on the sample table on day 85: the first block at or after it is the
    last one, at index 16 of 18. *)
Lemma festival_calculation_needs_full_window_witness :
  first_block (favs_arr Sample.env_late)
              (days_since_base (clock Sample.env_late (ticks Sample.world0))) 8 /\
  fst (Report.festival_calculation Sample.env_late Sample.world0) = Raise IndexError.
Proof.
  assert (first_block (favs_arr Sample.env_late)
            (days_since_base (clock Sample.env_late (ticks Sample.world0))) 8) as Hfirst.
  { split.
    - exists 90. split; [reflexivity|vm_compute; discriminate].
    - intros k' t Hk'.
      do 8 (destruct k' as [|k'];
            [intros H; vm_compute in H; injection H as <-; reflexivity|]).
      lia. }
  split; [exact Hfirst|].
  apply (proj1 (festival_calculation_needs_full_window Sample.env_late Sample.world0 8 Hfirst)).
  vm_compute. lia.
Defined.

(** ** The retry policy of [AsyncHttpx.get] *)

Section RetryPolicy.

Variable env : Env.

Lemma get_once_outcome url w :
  AsyncHttpx.get_once env url w =
  match outcome_of (transport env (reqs w) url) with
  | Succeeds response => (Ok response, sent url w)
  | FailsTransient e => (Raise e, emit (ELog url e) (sent url w))
  | FailsOther e => (Raise e, sent url w)
  end.
Proof.
  unfold AsyncHttpx.get_once, outcome_of, AsyncHttpx.raise_for_status.
  destruct (transport env (reqs w) url) as [response|e]; cbn.
  - destruct (_ && _); reflexivity.
  - destruct e; reflexivity.
Qed.

Lemma outcome_transient answer e :
  outcome_of answer = FailsTransient e -> AsyncHttpx.transient e = true.
Proof.
  unfold outcome_of. destruct answer as [response|e'].
  - destruct (_ && _); intros [= <-]; reflexivity.
  - destruct e'; intros [= <-]; reflexivity.
Qed.

Lemma outcome_other answer e :
  outcome_of answer = FailsOther e -> AsyncHttpx.transient e = false.
Proof.
  unfold outcome_of. destruct answer as [response|e'].
  - destruct (_ && _); discriminate.
  - destruct e'; intros [= <-]; reflexivity.
Qed.

(** One turn of tenacity's loop around [get_once]. *)
Lemma retrying_get_once url left w :
  Tenacity.retrying AsyncHttpx.transient 1 (AsyncHttpx.get_once env url) left w =
  match outcome_of (transport env (reqs w) url) with
  | Succeeds response => (Ok response, sent url w)
  | FailsOther e => (Raise e, sent url w)
  | FailsTransient e =>
      match left with
      | O => (Raise (RetryError e), emit (ELog url e) (sent url w))
      | S left' =>
          Tenacity.retrying AsyncHttpx.transient 1 (AsyncHttpx.get_once env url) left'
            (emit (ESleep 1) (emit (ELog url e) (sent url w)))
      end
  end.
Proof.
  destruct left; cbn [Tenacity.retrying]; rewrite get_once_outcome;
    destruct (outcome_of _) eqn:Hout; try reflexivity;
    try (rewrite (outcome_transient _ _ Hout); reflexivity);
    rewrite (outcome_other _ _ Hout); reflexivity.
Qed.

(** C3, as amended. [AsyncHttpx.get url] sends at most three requests.
    There are a list [failed] of at most two exceptions and a final
    outcome such that: request [k] of the call failed with [failed[k]], a
    timeout, connection failure or error status, was logged with the URL
    and that exception, and was followed by a sleep of 1 and the next
    request; the request after those ended with [final]; a final transient
    failure only happens on the third request, is logged like the others,
    and makes the call raise tenacity's RetryError around it; a success
    returns the response and any other exception is raised as it is, with
    no log line, no sleep and no further request. Nothing else happens:
    the clock and the files are untouched. *)
Theorem get_retry_policy url w :
  exists (failed : list exn) (final : attempt_outcome),
    (length failed <= 2)%nat /\
    (forall k e, failed !! k = Some e ->
                 outcome_of (transport env (reqs w + k) url) = FailsTransient e) /\
    outcome_of (transport env (reqs w + length failed) url) = final /\
    (forall e, final = FailsTransient e -> length failed = 2%nat) /\
    AsyncHttpx.get env url w =
    (propagated final,
     mkWorld (fs w) (ticks w) (reqs w + length failed + 1)
             (trace w ++ flat_map (retried url) failed ++ last_attempt url final)).
Proof.
  unfold AsyncHttpx.get, Tenacity.retry. cbn [Nat.sub].
  rewrite retrying_get_once.
  destruct (outcome_of (transport env (reqs w) url)) as [r1|e1|e1] eqn:H1.
  1, 3: exists [], (outcome_of (transport env (reqs w) url)); rewrite H1;
    unfold emit, sent; cbn;
    rewrite !Nat.add_0_r, Nat.add_1_r;
    (split; [lia|]); (split; [intros k e; discriminate|]);
    (split; [exact H1|]); (split; [discriminate|reflexivity]).
  rewrite retrying_get_once. cbn [reqs emit sent].
  destruct (outcome_of (transport env (S (reqs w)) url)) as [r2|e2|e2] eqn:H2.
  1, 3: exists [e1], (outcome_of (transport env (S (reqs w)) url)); rewrite H2;
    unfold emit, sent; cbn;
    rewrite !Nat.add_1_r, <- ?app_assoc;
    (split; [lia|]);
    (split; [intros [|k] e; cbn;
             [rewrite Nat.add_0_r; intros [= <-]; exact H1
             |discriminate]|]);
    (split; [exact H2|]); (split; [discriminate|reflexivity]).
  rewrite retrying_get_once. cbn [reqs emit sent].
  exists [e1; e2], (outcome_of (transport env (S (S (reqs w))) url)).
  assert (forall k e, [e1; e2] !! k = Some e ->
                      outcome_of (transport env (reqs w + k) url) = FailsTransient e) as Hk.
  { intros [|[|k]] e; cbn.
    - rewrite Nat.add_0_r; intros [= <-]; exact H1.
    - rewrite Nat.add_1_r; intros [= <-]; exact H2.
    - discriminate. }
  cbn [length]. replace (reqs w + 2)%nat with (S (S (reqs w))) by lia.
  split; [lia|]. split; [exact Hk|]. split; [reflexivity|]. split; [reflexivity|].
  destruct (outcome_of (transport env (S (S (reqs w))) url)) as [r3|e3|e3];
    unfold emit, sent; cbn; rewrite <- ?app_assoc, Nat.add_1_r; reflexivity.
Qed.

End RetryPolicy.

(** Two timeouts, then an answer: the third attempt returns it, after two
    log lines and two sleeps of 1. *)
Example get_third_time_lucky :
  AsyncHttpx.get Sample.env_retry "u" Sample.world0 =
    (Ok (mkResponse 200 (str "u")),
     mkWorld ∅ 0 3 [ERequest "u"; ELog "u" TimeoutException; ESleep 1;
                    ERequest "u"; ELog "u" TimeoutException; ESleep 1;
                    ERequest "u"]).
Proof. reflexivity. Qed.

(** The claim as stated fails on a network that always times out: the third
    timeout does not leave [get] as the timeout exception but inside a
    RetryError. *)
Lemma get_third_timeout_is_wrapped :
  AsyncHttpx.get Sample.env_down "u" Sample.world0 =
    (Raise (RetryError TimeoutException),
     mkWorld ∅ 0 3 [ERequest "u"; ELog "u" TimeoutException; ESleep 1;
                    ERequest "u"; ELog "u" TimeoutException; ESleep 1;
                    ERequest "u"; ELog "u" TimeoutException]) /\
  fst (AsyncHttpx.get Sample.env_down "u" Sample.world0) <> Raise TimeoutException.
Proof. split; [reflexivity|discriminate]. Qed.

(** ** Running the monad *)

Lemma bind_run {A B} (m : M A) (k : A -> M B) w :
  bind m k w =
  match m w with
  | (Ok a, w1) => k a w1
  | (Raise e, w1) => (Raise e, w1)
  end.
Proof. reflexivity. Qed.

Lemma bind_inv {A B} (m : M A) (k : A -> M B) w r w' :
  bind m k w = (r, w') ->
  (exists e, m w = (Raise e, w') /\ r = Raise e) \/
  (exists a w1, m w = (Ok a, w1) /\ k a w1 = (r, w')).
Proof.
  rewrite bind_run. destruct (m w) as [[a|e] w1]; intros H.
  - right. eauto.
  - left. injection H as <- <-. eauto.
Qed.

Lemma reaches_refl w : reaches w w.
Proof.
  repeat split; try lia. exists []. rewrite app_nil_r. split; [reflexivity|constructor].
Qed.

Lemma reaches_trans w1 w2 w3 : reaches w1 w2 -> reaches w2 w3 -> reaches w1 w3.
Proof.
  intros (F1 & T1 & R1 & evs1 & E1 & N1) (F2 & T2 & R2 & evs2 & E2 & N2).
  repeat split; try lia; try congruence.
  exists (evs1 ++ evs2). rewrite E2, E1, app_assoc. split; [reflexivity|].
  apply Forall_app. split; assumption.
Qed.

Lemma reaches_tick w : reaches w (tick w).
Proof.
  repeat split; cbn; try lia. exists []. rewrite app_nil_r. split; [reflexivity|constructor].
Qed.

Lemma network_only_ret {A} (a : A) : network_only (ret a).
Proof. intros w r w' [= <- <-]. apply reaches_refl. Qed.

Lemma network_only_lift {A} (x : result A) : network_only (lift x).
Proof. intros w r w' [= <- <-]. apply reaches_refl. Qed.

Lemma network_only_bind {A B} (m : M A) (k : A -> M B) :
  network_only m -> (forall a, network_only (k a)) -> network_only (bind m k).
Proof.
  intros Hm Hk w r w' H.
  apply bind_inv in H as [(e & H & _)|(a & w1 & H1 & H2)].
  - eapply Hm, H.
  - eapply reaches_trans; [eapply Hm, H1|eapply Hk, H2].
Qed.

Lemma first_at_most_take {A} (n : nat) (l : list A) : first_at_most n l = take n l.
Proof.
  unfold first_at_most. destruct (Nat.ltb_spec n (length l)); [reflexivity|].
  symmetry. apply take_ge. lia.
Qed.

(** ** The adapters *)

Section Adapters.

Variable env : Env.

Lemma network_only_get_once url : network_only (AsyncHttpx.get_once env url).
Proof.
  intros w r w'. rewrite get_once_outcome.
  destruct (outcome_of _); intros [= <- <-];
    (repeat split; cbn; try lia); eexists;
    (split; [rewrite <- ?app_assoc; reflexivity|repeat constructor]).
Qed.

Lemma network_only_retrying {A} p (fn : M A) left :
  network_only fn -> network_only (Tenacity.retrying p 1 fn left).
Proof.
  intros Hfn. induction left as [|left IH]; intros w r w'; cbn [Tenacity.retrying];
    destruct (fn w) as [[a|e] w1] eqn:Hrun; apply Hfn in Hrun.
  - intros [= <- <-]. exact Hrun.
  - destruct (p e); intros [= <- <-]; exact Hrun.
  - intros [= <- <-]. exact Hrun.
  - destruct (p e); [|intros [= <- <-]; exact Hrun].
    intros H. apply IH in H.
    eapply reaches_trans; [exact Hrun|]. eapply reaches_trans; [|exact H].
    repeat split; cbn; try lia. eexists. split; [reflexivity|repeat constructor].
Qed.

Lemma network_only_get url : network_only (AsyncHttpx.get env url).
Proof. apply network_only_retrying, network_only_get_once. Qed.

Lemma network_only_now : network_only (datetime_now env).
Proof. intros w r w' [= <- <-]. apply reaches_tick. Qed.

Lemma network_only_festival : network_only (Report.festival_calculation env).
Proof.
  apply network_only_bind; [apply network_only_now|].
  intros now. apply network_only_lift.
Qed.

Lemma network_only_hitokoto : network_only (Report.get_hitokoto env).
Proof.
  apply network_only_bind; [apply network_only_get|]. intros res.
  apply network_only_bind; [apply network_only_lift|]. intros d.
  apply network_only_ret.
Qed.

Lemma network_only_bili : network_only (Report.get_bili env).
Proof.
  apply network_only_bind; [apply network_only_get|]. intros res.
  apply network_only_bind; [apply network_only_lift|]. intros d.
  apply network_only_lift.
Qed.

Lemma network_only_six : network_only (Report.get_six env).
Proof.
  apply network_only_bind; [apply network_only_get|]. intros res.
  apply network_only_bind; [apply network_only_lift|]. intros d.
  apply network_only_ret.
Qed.

Lemma network_only_anime : network_only (Report.get_anime env).
Proof.
  apply network_only_bind; [apply network_only_get|]. intros res.
  apply network_only_bind; [apply network_only_now|]. intros now.
  apply network_only_bind; [apply network_only_lift|]. intros a.
  apply network_only_ret.
Qed.

Lemma network_only_it : network_only (Report.get_it env).
Proof.
  apply network_only_bind; [apply network_only_get|]. intros res.
  apply network_only_bind; [apply network_only_lift|]. intros root.
  apply network_only_ret.
Qed.

(** *** Trending keywords *)

Lemma collect_keywords (elements keywords : list json) :
  Forall2 (fun element kw =>
             exists f, element = JObject f /\ dict_get f (str "keyword") = Some kw)
          elements keywords ->
  collect_key (JArray elements) (str "keyword") = Ok keywords.
Proof.
  cbn [collect_key]. induction 1 as [|element kw elements keywords (f & -> & Hf) _ IH].
  - reflexivity.
  - cbn [rmap getitem_key]. rewrite Hf. cbn [rbind]. rewrite IH. reflexivity.
Qed.

(** C5. When the response to the trending request is a JSON object whose
    [list] field is an array of objects that each have a [keyword] field,
    [get_bili] returns the [keyword] values of all the elements, in the
    order of the array: as many values as the array has elements, whatever
    its length. *)
Theorem get_bili_returns_every_keyword w res w' fields elements keywords :
  AsyncHttpx.get env Report.bili_url w = (Ok res, w') ->
  json_loads env (text res) = Some (JObject fields) ->
  dict_get fields (str "list") = Some (JArray elements) ->
  Forall2 (fun element kw =>
             exists f, element = JObject f /\ dict_get f (str "keyword") = Some kw)
          elements keywords ->
  Report.get_bili env w = (Ok keywords, w') /\
  length keywords = length elements.
Proof.
  intros Hget Hjson Hlist Hall. split.
  - unfold Report.get_bili. rewrite bind_run, Hget.
    unfold Report.response_json. rewrite Hjson.
    rewrite bind_run. cbn [lift]. cbn [getitem_key]. rewrite Hlist. cbn [rbind].
    rewrite (collect_keywords _ _ Hall). reflexivity.
  - symmetry. eapply Forall2_length, Hall.
Qed.

End Adapters.

(** C5 on the sample network: twelve keywords come back, all twelve. *)
Lemma get_bili_returns_every_keyword_witness :
  Report.get_bili Sample.env Sample.world0 =
    (Ok (map (fun s => JString (str s)) Sample.twelve),
     sent Report.bili_url Sample.world0) /\
  length (map (fun s => JString (str s)) Sample.twelve) = 12%nat.
Proof.
  split; [|reflexivity].
  refine (proj1 (get_bili_returns_every_keyword Sample.env Sample.world0
            (mkResponse 200 (str Report.bili_url)) (sent Report.bili_url Sample.world0)
            [(str "list", JArray (map Sample.keyword Sample.twelve))]
            (map Sample.keyword Sample.twelve)
            (map (fun s => JString (str s)) Sample.twelve)
            eq_refl eq_refl eq_refl _)).
  unfold Sample.twelve. cbn [map].
  repeat (constructor; [eexists; split; reflexivity|]). constructor.
Defined.

(** *** News titles *)

Lemma it_titles_omap (root : Element) :
  Report.it_titles root = omap entry_title (entries root).
Proof.
  unfold Report.it_titles, entries.
  generalize (findall2 (str "channel") (str "item") root) as l.
  assert (forall l acc,
            fold_left
              (fun titles item =>
                 match find (str "title") item with
                 | Some title_element => titles ++ [text_of title_element]
                 | None => titles
                 end) l acc = acc ++ omap entry_title l) as H.
  { induction l as [|entry l IH]; intros acc; cbn [fold_left omap].
    - rewrite app_nil_r. reflexivity.
    - rewrite IH. cbn. unfold entry_title.
      destruct (find (str "title") entry); cbn.
      + rewrite <- app_assoc. reflexivity.
      + reflexivity. }
  intros l. apply (H l []).
Qed.

Lemma entries_spec (root entry : Element) :
  In entry (entries root) <->
  exists channel,
    In channel (children_of root) /\ tag_of channel = str "channel" /\
    In entry (children_of channel) /\ tag_of entry = str "item".
Proof.
  unfold entries, findall2. rewrite in_flat_map. split.
  - intros (channel & Hc & He).
    apply List.filter_In in Hc as [Hc Ht]. apply List.filter_In in He as [He Hi].
    unfold has_tag in *. apply bool_decide_eq_true in Ht, Hi. eauto 6.
  - intros (channel & Hc & Ht & He & Hi). exists channel.
    rewrite !List.filter_In. unfold has_tag. rewrite !bool_decide_eq_true. auto.
Qed.

Section News.

Variable env : Env.

(** C8. When the response to the news request parses as an XML document
    with root [root], [get_it] returns the title texts of the entries
    ([channel/item] elements) in document order, an entry without a
    [title] child contributing nothing: the first 11 of them when there
    are more than 11, all of them otherwise. *)
Theorem get_it_returns_first_titles w res w' root :
  AsyncHttpx.get env Report.it_url w = (Ok res, w') ->
  ET_fromstring env (text res) = Some root ->
  let titles := omap entry_title (entries root) in
  Report.get_it env w = (Ok (take 11 titles), w') /\
  ((11 < length titles)%nat -> length (take 11 titles) = 11%nat) /\
  ((length titles <= 11)%nat -> take 11 titles = titles) /\
  (forall entry, find (str "title") entry = None ->
                 omap entry_title [entry] = []) /\
  (forall entry t, find (str "title") entry = Some t ->
                   omap entry_title [entry] = [text_of t]).
Proof.
  intros Hget Hxml titles. split; [|split; [|split; [|split]]].
  - unfold Report.get_it. rewrite bind_run, Hget, Hxml.
    rewrite bind_run. cbn [lift ret].
    rewrite first_at_most_take, it_titles_omap. reflexivity.
  - intros H. rewrite length_take. lia.
  - intros H. apply take_ge. lia.
  - intros entry H. cbn. unfold entry_title. rewrite H. reflexivity.
  - intros entry t H. cbn. unfold entry_title. rewrite H. reflexivity.
Qed.

(** C4, as amended. The news adapter returns at most 11 titles, the
    aggregate-feed adapter at most 11 entries and the anime adapter at most
    8 pairs, in each case the first ones, in source order, of what the
    response holds: [take 11] of the titles of the parsed feed, [take 11]
    of the news of the validated body, [take 8] of the pairs of the
    selected weekday entry. *)
Theorem truncating_adapters_keep_first w :
  (forall l w', Report.get_it env w = (Ok l, w') ->
     (length l <= 11)%nat /\
     exists res root,
       AsyncHttpx.get env Report.it_url w = (Ok res, w') /\
       ET_fromstring env (text res) = Some root /\
       l = take 11 (omap entry_title (entries root))) /\
  (forall l w', Report.get_six env w = (Ok l, w') ->
     (length l <= 11)%nat /\
     exists res d,
       AsyncHttpx.get env Report.six_url w = (Ok res, w') /\
       rbind (Report.response_json env res) (construct (SixData_validate env)) = Ok d /\
       l = take 11 (news (data d))) /\
  (forall l w', Report.get_anime env w = (Ok l, w') ->
     (length l <= 8)%nat /\
     exists res w1 anime,
       AsyncHttpx.get env Report.anime_url w = (Ok res, w1) /\
       Report.select_anime env res
         (weekday_of_day (days_since_base (clock env (ticks w1)))) = Ok anime /\
       l = take 8 (map (fun d => (str_or (name_cn d) (name d), image d)) (items anime))).
Proof.
  split; [|split]; intros l w' H.
  - unfold Report.get_it in H.
    apply bind_inv in H as [(e & _ & [=])|(res & w1 & Hget & H)].
    apply bind_inv in H as [(e & _ & [=])|(root & w2 & Hroot & H)].
    cbn [lift] in Hroot. injection H as <- <-.
    rewrite first_at_most_take, it_titles_omap.
    split; [rewrite length_take; lia|].
    destruct (ET_fromstring env (text res)) as [root'|] eqn:Hxml; [|discriminate].
    injection Hroot as -> <-. eauto.
  - unfold Report.get_six in H.
    apply bind_inv in H as [(e & _ & [=])|(res & w1 & Hget & H)].
    apply bind_inv in H as [(e & _ & [=])|(d & w2 & Hd & H)].
    cbn [lift] in Hd. injection Hd as Hd <-. injection H as <- <-.
    rewrite first_at_most_take.
    split; [rewrite length_take; lia|]. eauto.
  - unfold Report.get_anime in H.
    apply bind_inv in H as [(e & _ & [=])|(res & w1 & Hget & H)].
    apply bind_inv in H as [(e & _ & [=])|(now & w2 & Hnow & H)].
    injection Hnow as <- <-.
    apply bind_inv in H as [(e & _ & [=])|(anime & w3 & Hsel & H)].
    cbn [lift] in Hsel. injection Hsel as Hsel <-. injection H as <- <-.
    rewrite first_at_most_take.
    split; [rewrite length_take; lia|].
    exists res, w1, anime. auto.
Qed.

End News.

(** C8 on the sample feed: fourteen entries with a title and one without. *)
Lemma get_it_returns_first_titles_witness :
  Report.get_it Sample.env Sample.world0 =
    (Ok (map (fun s => Some (str s))
             ["t01"; "k02"; "k03"; "k04"; "k05"; "k06"; "k07"; "k08"; "k09"; "k10"; "k11"]%string),
     sent Report.it_url Sample.world0).
Proof.
  exact (proj1 (get_it_returns_first_titles Sample.env Sample.world0
                  (mkResponse 200 (str Report.it_url)) (sent Report.it_url Sample.world0)
                  Sample.feed eq_refl eq_refl)).
Defined.

(** The claim as stated fails for the trending keywords: twelve keywords in,
    twelve keywords out. *)
Lemma get_bili_exceeds_eleven :
  exists l, fst (Report.get_bili Sample.env Sample.world0) = Ok l /\
            ~ (length l <= 11)%nat.
Proof. eexists. split; [reflexivity|]. cbn. lia. Qed.

(** C4 (amended) on the sample feed (fourteen titles) and on the sample
    calendar (nine items in the selected entry). *)
Lemma truncating_adapters_keep_first_witness :
  (length (map (fun s => Some (str s))
     ["t01"; "k02"; "k03"; "k04"; "k05"; "k06"; "k07"; "k08"; "k09"; "k10"; "k11"]%string)
   <= 11)%nat /\
  (length (map (fun s => (str s, str "cover.png"))
     ["w1"; "w2"; "w3"; "w4"; "w5"; "w6"; "w7"; "w8"]%string)
   <= 8)%nat.
Proof.
  split.
  - exact (proj1 (proj1 (truncating_adapters_keep_first Sample.env Sample.world0)
                    _ (sent Report.it_url Sample.world0) eq_refl)).
  - exact (proj1 (proj2 (proj2 (truncating_adapters_keep_first Sample.env Sample.world0))
                    _ (tick (sent Report.anime_url Sample.world0)) eq_refl)).
Defined.

(** *** The anime schedule *)

Lemma weekday_range (day : Z) : 0 <= weekday_of_day day <= 6.
Proof. unfold weekday_of_day. pose proof (Z.mod_pos_bound (day + 4) 7 ltac:(lia)). lia. Qed.

Lemma construct_raises {T} (validate : list (pystr * json) -> option T) x e :
  construct validate x = Raise e -> e <> IndexError.
Proof.
  unfold construct. destruct x; try (intros [= <-]; discriminate).
  destruct (validate fields); intros [= <-]; discriminate.
Qed.

Lemma except_IndexError_other {A} (body handler : result A) :
  (forall e, body = Raise e -> e <> IndexError) ->
  except_IndexError body handler = body.
Proof.
  intros H. unfold except_IndexError. destruct body as [a|e]; [reflexivity|].
  destruct e; try reflexivity. exfalso. apply (H IndexError); reflexivity.
Qed.

Section AnimeSchedule.

Variable env : Env.

Lemma select_anime_array res elements weekday :
  json_loads env (text res) = Some (JArray elements) ->
  elements <> [] ->
  0 <= weekday ->
  exists chosen,
    match elements !! Z.to_nat weekday with
    | Some x => chosen = x
    | None => last elements = Some chosen
    end /\
    Report.select_anime env res weekday = construct (Anime_validate env) chosen.
Proof.
  intros Hjson Hne Hwd.
  unfold Report.select_anime, Report.anime_at, Report.response_json.
  rewrite Hjson. cbn [rbind getitem_int].
  assert (index elements weekday =
          match elements !! Z.to_nat weekday with
          | Some x => Ok x
          | None => Raise IndexError
          end) as ->.
  { rewrite <- index_of_nat, Z2Nat.id by exact Hwd. reflexivity. }
  destruct (elements !! Z.to_nat weekday) as [x|].
  - exists x. split; [reflexivity|]. cbn [rbind].
    apply except_IndexError_other. intros e. apply construct_raises.
  - destruct (exists_last Hne) as (front & x & ->).
    exists x. split; [apply last_snoc|].
    cbn [rbind except_IndexError]. rewrite index_last. reflexivity.
Qed.

(** C6. When the response to the anime request is a non-empty JSON array,
    [get_anime] builds the [Anime] entry from the element at the index of
    the current weekday (Monday = 0) when the array has one, and from the
    last element of the array otherwise; the choice of the element never
    raises, however short the array is, so that the call ends as the
    construction of the model from the chosen element ends: when the chosen
    element validates as an entry, the call returns the pairs of its items
    (the first 8 of them). *)
Theorem get_anime_selects_weekday w res w1 elements :
  AsyncHttpx.get env Report.anime_url w = (Ok res, w1) ->
  json_loads env (text res) = Some (JArray elements) ->
  elements <> [] ->
  let weekday := weekday_of_day (days_since_base (clock env (ticks w1))) in
  0 <= weekday <= 6 /\
  exists chosen,
    match elements !! Z.to_nat weekday with
    | Some x => chosen = x
    | None => last elements = Some chosen
    end /\
    Report.select_anime env res weekday = construct (Anime_validate env) chosen /\
    Report.get_anime env w =
    (rbind (construct (Anime_validate env) chosen)
           (fun anime => Ok (first_at_most 8 (Report.anime_pairs anime))),
     tick w1) /\
    (forall fields anime,
        chosen = JObject fields ->
        Anime_validate env fields = Some anime ->
        Report.get_anime env w =
        (Ok (first_at_most 8 (Report.anime_pairs anime)), tick w1)).
Proof.
  intros Hget Hjson Hne weekday. split; [apply weekday_range|].
  destruct (select_anime_array res elements weekday Hjson Hne) as (chosen & Hsel & Hrun).
  { apply weekday_range. }
  exists chosen. split; [exact Hsel|]. split; [exact Hrun|].
  assert (Report.get_anime env w =
          (rbind (construct (Anime_validate env) chosen)
                 (fun anime => Ok (first_at_most 8 (Report.anime_pairs anime))),
           tick w1)) as Hanime.
  { unfold Report.get_anime. rewrite bind_run, Hget.
    rewrite bind_run. cbn [datetime_now].
    rewrite bind_run. cbn [lift]. fold weekday. rewrite Hrun.
    destruct (construct (Anime_validate env) chosen); reflexivity. }
  split; [exact Hanime|].
  intros fields anime -> Hvalid. rewrite Hanime. cbn [construct].
  rewrite Hvalid. reflexivity.
Qed.

(** C9. When the response to the anime request is the empty JSON array,
    [get_anime] raises IndexError: the access to the last element in the
    handler fails as the access by weekday did, and nothing catches it. *)
Theorem get_anime_empty_array_raises w res w1 :
  AsyncHttpx.get env Report.anime_url w = (Ok res, w1) ->
  json_loads env (text res) = Some (JArray []) ->
  Report.get_anime env w = (Raise IndexError, tick w1).
Proof.
  intros Hget Hjson.
  unfold Report.get_anime. rewrite bind_run, Hget.
  rewrite bind_run. cbn [datetime_now].
  rewrite bind_run. cbn [lift].
  unfold Report.select_anime, Report.anime_at, Report.response_json.
  rewrite Hjson. cbn [rbind getitem_int]. rewrite !index_nil. reflexivity.
Qed.

End AnimeSchedule.

(** C6 on the sample calendar of three entries, on a Saturday (weekday 5):
    the third and last entry is chosen, and its nine items are cut to eight. *)
Lemma get_anime_selects_weekday_witness :
  weekday_of_day (days_since_base (clock Sample.env 0%nat)) = 5 /\
  exists chosen,
    chosen = Sample.weekday_entry ["w1"; "w2"; "w3"; "w4"; "w5"; "w6"; "w7"; "w8"; "w9"] /\
    Report.get_anime Sample.env Sample.world0 =
    (rbind (construct Sample.anime_of chosen)
           (fun anime => Ok (first_at_most 8 (Report.anime_pairs anime))),
     tick (sent Report.anime_url Sample.world0)).
Proof.
  split; [reflexivity|].
  destruct (get_anime_selects_weekday Sample.env Sample.world0
              (mkResponse 200 (str Report.anime_url))
              (sent Report.anime_url Sample.world0)
              [Sample.weekday_entry ["mon"]; Sample.weekday_entry ["tue"];
               Sample.weekday_entry ["w1"; "w2"; "w3"; "w4"; "w5"; "w6"; "w7"; "w8"; "w9"]]
              eq_refl eq_refl ltac:(discriminate))
    as (_ & chosen & Hsel & _ & Hrun & _).
  exists chosen. split; [|exact Hrun].
  vm_compute in Hsel. injection Hsel as <-. reflexivity.
Defined.

(** C9 on the sample network with an empty calendar. *)
Lemma get_anime_empty_array_raises_witness :
  Report.get_anime Sample.env_no_anime Sample.world0 =
  (Raise IndexError, tick (sent Report.anime_url Sample.world0)).
Proof.
  exact (get_anime_empty_array_raises Sample.env_no_anime Sample.world0
           (mkResponse 200 (str Report.anime_url))
           (sent Report.anime_url Sample.world0) eq_refl eq_refl).
Defined.

(** ** The pipeline and its cache *)

Section Pipeline.

Variable env : Env.

Lemma caches_result_bind {A} (m : M A) (k : A -> M (list Byte.byte)) :
  network_only m -> (forall a, caches_result env (k a)) -> caches_result env (bind m k).
Proof.
  intros Hm Hk w r w' H.
  apply bind_inv in H as [(e & H & ->)|(a & w1 & H1 & H2)].
  - apply Hm in H. apply H.
  - pose proof (Hm _ _ _ H1) as Hreach. pose proof (Hk a _ _ _ H2) as Hrest.
    destruct r as [b|e].
    + destruct Hrest as (w2 & d & Hreach2 & Hpic & ->).
      exists w2, d. split; [eapply reaches_trans; eassumption|]. auto.
    + destruct Hreach as (Hfs & _). congruence.
Qed.

Lemma caches_result_render d :
  caches_result env
    (bind (Report.render env d)
          (fun image_bytes =>
             bind (save env image_bytes) (fun _ => ret image_bytes))).
Proof.
  intros w r w'. rewrite bind_run. unfold Report.render.
  destruct (template_to_pic env d) as [b|e] eqn:Hpic.
  - intros [= <- <-]. exists w, d. split; [apply reaches_refl|]. auto.
  - intros [= <- <-]. reflexivity.
Qed.

(** The rest of [get_report_image] once the cache has been missed. *)
Lemma caches_result_miss now :
  caches_result env
    (bind (lift (ZhDate_from_datetime env now)) (fun zhdata =>
     bind (Report.festival_calculation env) (fun festival =>
     bind (Report.get_hitokoto env) (fun quote =>
     bind (Report.get_bili env) (fun bili =>
     bind (Report.get_six env) (fun six =>
     bind (Report.get_anime env) (fun anime =>
     bind (Report.get_it env) (fun it =>
     bind (lift (match Report.week (weekday_of_day (days_since_base now)) with
                 | Some l => Ok l
                 | None => Raise KeyError
                 end)) (fun label =>
     bind (lift (rbind (index (split (ZhDate_chinese env zhdata)) 0)
                       (fun token => Ok (drop 5 token)))) (fun lunar =>
     bind (Report.render env
             (mkReportData festival quote bili six anime it label
                           (days_since_base now) lunar)) (fun image_bytes =>
     bind (save env image_bytes) (fun _ => ret image_bytes)))))))))))).
Proof.
  apply caches_result_bind; [apply network_only_lift|]. intros zhdata.
  apply caches_result_bind; [apply network_only_festival|]. intros festival.
  apply caches_result_bind; [apply network_only_hitokoto|]. intros quote.
  apply caches_result_bind; [apply network_only_bili|]. intros bili.
  apply caches_result_bind; [apply network_only_six|]. intros six.
  apply caches_result_bind; [apply network_only_anime|]. intros anime.
  apply caches_result_bind; [apply network_only_it|]. intros it.
  apply caches_result_bind; [apply network_only_lift|]. intros label.
  apply caches_result_bind; [apply network_only_lift|]. intros lunar.
  apply caches_result_render.
Qed.

Lemma get_report_image_hit w content :
  fs w !! days_since_base (clock env (ticks w)) = Some content ->
  Report.get_report_image env w = (Ok content, tick w).
Proof.
  intros Hhit. unfold Report.get_report_image.
  rewrite bind_run. cbn [datetime_now].
  rewrite bind_run. unfold Report.file_content. cbn [fs tick]. rewrite Hhit.
  reflexivity.
Qed.

Lemma get_report_image_miss w r w' :
  fs w !! days_since_base (clock env (ticks w)) = None ->
  Report.get_report_image env w = (r, w') ->
  match r with
  | Raise _ => fs w' = fs w
  | Ok b =>
      exists w2 d,
        reaches (tick w) w2 /\
        template_to_pic env d = Ok b /\
        w' = written (days_since_base (clock env (ticks w2))) b
                     (tick (emit (ERender d) w2))
  end.
Proof.
  intros Hmiss. unfold Report.get_report_image.
  rewrite bind_run. cbn [datetime_now].
  rewrite bind_run. unfold Report.file_content. cbn [fs tick]. rewrite Hmiss.
  intros H. apply caches_result_miss in H. exact H.
Qed.


Lemma adapter_fails_reaches w0 e w' : adapter_fails env w0 e w' -> reaches w0 w'.
Proof.
  pose proof (network_only_festival env) as Hf.
  pose proof (network_only_hitokoto env) as Hh.
  pose proof (network_only_bili env) as Hb.
  pose proof (network_only_six env) as Hs.
  pose proof (network_only_anime env) as Ha.
  pose proof (network_only_it env) as Hi.
  unfold network_only in *.
  destruct 1;
    repeat match goal with
           | H : _ = (_, _) |- _ =>
               first [apply Hf in H | apply Hh in H | apply Hb in H
                     | apply Hs in H | apply Ha in H | apply Hi in H]
           end;
    repeat first [eassumption | eapply reaches_trans; [eassumption|]].
Qed.

(** C7. On a cache miss:
    - when one of the sources, reached after those before it returned,
      raises, [get_report_image] raises that same exception there and
      then: only network events have happened since the call began, so
      nothing was rendered and no file was written;
    - whatever makes the call raise, the files are as they were;
    - when the call returns [b], the trace of the call ends with the
      render that produced [b] followed by the write of the day's file,
      which is the only change to the files. *)
Theorem failed_adapter_fails_report w :
  fs w !! days_since_base (clock env (ticks w)) = None ->
  (forall zhdata e w',
      ZhDate_from_datetime env (clock env (ticks w)) = Ok zhdata ->
      adapter_fails env (tick w) e w' ->
      Report.get_report_image env w = (Raise e, w') /\
      fs w' = fs w /\
      exists evs, trace w' = trace w ++ evs /\ Forall network_event evs) /\
  (forall e w', Report.get_report_image env w = (Raise e, w') -> fs w' = fs w) /\
  (forall b w', Report.get_report_image env w = (Ok b, w') ->
      exists d evs day,
        template_to_pic env d = Ok b /\
        Forall network_event evs /\
        trace w' = trace w ++ evs ++ [ERender d; EWrite day] /\
        fs w' = <[day := b]> (fs w)).
Proof.
  intros Hmiss. split; [|split].
  - intros zhdata e w' Hzh Hfail. split.
    + unfold Report.get_report_image.
      rewrite bind_run. cbn [datetime_now].
      rewrite bind_run. unfold Report.file_content. cbn [fs tick]. rewrite Hmiss.
      rewrite bind_run. cbn [lift]. rewrite Hzh.
      destruct Hfail;
        repeat match goal with
               | H : ?m ?w0 = _ |- context [bind ?m _ ?w0] => rewrite bind_run, H
               end; reflexivity.
    + apply adapter_fails_reaches in Hfail.
      destruct Hfail as (Hfs & _ & _ & evs & Htrace & Hnet). eauto.
  - intros e w' H. apply (get_report_image_miss w _ _ Hmiss H).
  - intros b w' H.
    destruct (get_report_image_miss w _ _ Hmiss H)
      as (w2 & d & (Hfs & _ & _ & evs & Htrace & Hnet) & Hpic & ->).
    exists d, evs, (days_since_base (clock env (ticks w2))).
    split; [exact Hpic|]. split; [exact Hnet|]. cbn [trace fs written tick emit].
    rewrite Htrace, Hfs. cbn [trace fs tick]. rewrite <- !app_assoc. auto.
Qed.

(** C1. When a call of [get_report_image] returns [b], and the clock shows
    the date [D] at every read from the first read of that call to the
    first read of the next call, the next call returns the same [b]
    without any effect but its one read of the clock: no request is
    sent, nothing is logged, rendered or written. *)
Theorem cache_idempotence w D b w1 :
  (forall k, (ticks w <= k <= ticks w1)%nat -> days_since_base (clock env k) = D) ->
  Report.get_report_image env w = (Ok b, w1) ->
  exists w2,
    Report.get_report_image env w1 = (Ok b, w2) /\
    reqs w2 = reqs w1 /\ trace w2 = trace w1 /\ fs w2 = fs w1.
Proof.
  intros Hday Hfirst. exists (tick w1). split; [|auto].
  apply get_report_image_hit.
  destruct (fs w !! days_since_base (clock env (ticks w))) as [content|] eqn:Hcache.
  - rewrite (get_report_image_hit w content Hcache) in Hfirst.
    injection Hfirst as -> <-. cbn [fs ticks tick] in *.
    rewrite (Hday (S (ticks w))) by lia. rewrite <- (Hday (ticks w)) by lia.
    exact Hcache.
  - destruct (get_report_image_miss w _ _ Hcache Hfirst)
      as (w2 & d & (_ & Hticks & _) & _ & ->).
    cbn [fs ticks tick written emit] in *.
    rewrite (Hday (S (ticks w2))) by lia. rewrite <- (Hday (ticks w2)) by lia.
    apply lookup_insert_eq.
Qed.

End Pipeline.

(** C7 on the sample network that always times out: the quote request is
    the first to fail, after three attempts. *)
Lemma failed_adapter_fails_report_witness :
  fs Sample.world0 !! days_since_base (clock Sample.env_down 0%nat) = None /\
  fst (Report.get_report_image Sample.env_down Sample.world0) =
    Raise (RetryError TimeoutException) /\
  fs (snd (Report.get_report_image Sample.env_down Sample.world0)) = fs Sample.world0.
Proof.
  assert (fs Sample.world0 !! days_since_base (clock Sample.env_down 0%nat) = None)
    as Hmiss by reflexivity.
  split; [exact Hmiss|].
  destruct (proj1 (failed_adapter_fails_report Sample.env_down Sample.world0 Hmiss)
              (str "2016y-11m-22d rest") (RetryError TimeoutException)
              (snd (Report.get_hitokoto Sample.env_down (tick (tick Sample.world0))))
              eq_refl)
    as (Hrun & Hfs & _).
  { eapply fails_hitokoto; reflexivity. }
  rewrite Hrun. split; [reflexivity|exact Hfs].
Defined.

(** C1 on the sample network: the first call fetches, renders and writes the
    file of day 15; the second call returns the same bytes from it. *)
Lemma cache_idempotence_witness :
  exists b w1 w2,
    Report.get_report_image Sample.env Sample.world0 = (Ok b, w1) /\
    reqs w1 = 5%nat /\
    Report.get_report_image Sample.env w1 = (Ok b, w2) /\
    reqs w2 = 5%nat.
Proof.
  destruct (Report.get_report_image Sample.env Sample.world0) as [[b|e] w1] eqn:Hfirst;
    [|vm_compute in Hfirst; discriminate].
  assert (reqs w1 = 5%nat /\ ticks w1 = 4%nat) as [Hreqs Hticks].
  { vm_compute in Hfirst. injection Hfirst as _ <-. split; reflexivity. }
  destruct (cache_idempotence Sample.env Sample.world0 15 b w1) as (w2 & Hsecond & Hr & _).
  - intros k _. reflexivity.
  - exact Hfirst.
  - exists b, w1, w2. rewrite Hr. auto.
Defined.

(** * Further properties *)

(** ** More on [AsyncHttpx.get] *)

Lemma outcome_succeeds answer response :
  outcome_of answer = Succeeds response ->
  answer = Ok response /\ 200 <= status_code response < 300.
Proof.
  unfold outcome_of. destruct answer as [r|e].
  - destruct (Z.leb_spec 200 (status_code r)), (Z.ltb_spec (status_code r) 300);
      cbn; intros [= <-]; split; (reflexivity || lia).
  - destruct e; discriminate.
Qed.

Lemma outcome_other_raised answer e :
  outcome_of answer = FailsOther e -> answer = Raise e.
Proof.
  unfold outcome_of. destruct answer as [r|e'].
  - destruct (_ && _); discriminate.
  - destruct e'; intros [= <-]; reflexivity.
Qed.

Lemma pred_of_succ (n : nat) : (S n - 1)%nat = n.
Proof. lia. Qed.

Section GetOutcomes.

Variable env : Env.

(** The three turns of the loop, one after the other. *)
Lemma get_unrolled url w :
  AsyncHttpx.get env url w =
  match outcome_of (transport env (reqs w) url) with
  | Succeeds r => (Ok r, sent url w)
  | FailsOther e => (Raise e, sent url w)
  | FailsTransient e1 =>
      let w1 := emit (ESleep 1) (emit (ELog url e1) (sent url w)) in
      match outcome_of (transport env (S (reqs w)) url) with
      | Succeeds r => (Ok r, sent url w1)
      | FailsOther e => (Raise e, sent url w1)
      | FailsTransient e2 =>
          let w2 := emit (ESleep 1) (emit (ELog url e2) (sent url w1)) in
          match outcome_of (transport env (S (S (reqs w))) url) with
          | Succeeds r => (Ok r, sent url w2)
          | FailsOther e => (Raise e, sent url w2)
          | FailsTransient e3 => (Raise (RetryError e3), emit (ELog url e3) (sent url w2))
          end
      end
  end.
Proof.
  unfold AsyncHttpx.get, Tenacity.retry. cbn [Nat.sub].
  rewrite retrying_get_once.
  destruct (outcome_of (transport env (reqs w) url)); try reflexivity.
  cbn zeta. rewrite retrying_get_once. cbn [reqs emit sent].
  destruct (outcome_of (transport env (S (reqs w)) url)); try reflexivity.
  rewrite retrying_get_once. cbn [reqs emit sent]. reflexivity.
Qed.

(** X1. A response that [AsyncHttpx.get] returns has a 2xx status, and it
    is the answer to the last request the call sent, which is the first,
    second or third one. *)
Theorem get_returns_last_success url w response w' :
  AsyncHttpx.get env url w = (Ok response, w') ->
  200 <= status_code response < 300 /\
  (reqs w < reqs w' <= reqs w + 3)%nat /\
  transport env (reqs w' - 1) url = Ok response.
Proof.
  rewrite get_unrolled.
  destruct (outcome_of (transport env (reqs w) url)) as [r1|e1|e1] eqn:H1;
    [| |discriminate].
  { intros [= <- <-]. apply outcome_succeeds in H1 as [H1 Hs]. cbn [reqs sent emit].
    rewrite pred_of_succ. repeat split; (lia || assumption). }
  cbn zeta.
  destruct (outcome_of (transport env (S (reqs w)) url)) as [r2|e2|e2] eqn:H2;
    [| |discriminate].
  { intros [= <- <-]. apply outcome_succeeds in H2 as [H2 Hs]. cbn [reqs sent emit].
    rewrite pred_of_succ. repeat split; (lia || assumption). }
  destruct (outcome_of (transport env (S (S (reqs w))) url)) as [r3|e3|e3] eqn:H3;
    [|discriminate..].
  intros [= <- <-]. apply outcome_succeeds in H3 as [H3 Hs]. cbn [reqs sent emit].
  rewrite pred_of_succ. repeat split; (lia || assumption).
Qed.

(** X2. An exception that leaves [AsyncHttpx.get] is never a timeout, a
    connection failure or an error status as such: it is either a
    RetryError around one of those, raised after exactly three requests, or
    an exception of another class that the last request raised. *)
Theorem get_raises_no_bare_transient url w e w' :
  AsyncHttpx.get env url w = (Raise e, w') ->
  AsyncHttpx.transient e = false /\
  ((exists cause, e = RetryError cause /\ AsyncHttpx.transient cause = true /\
                  reqs w' = (reqs w + 3)%nat) \/
   transport env (reqs w' - 1) url = Raise e).
Proof.
  rewrite get_unrolled.
  destruct (outcome_of (transport env (reqs w) url)) as [r1|e1|e1] eqn:H1;
    [discriminate| |].
  2: { intros [= <- <-]. split; [eapply outcome_other; eassumption|]. right.
       cbn [reqs sent emit]. rewrite pred_of_succ.
       eapply outcome_other_raised; eassumption. }
  cbn zeta.
  destruct (outcome_of (transport env (S (reqs w)) url)) as [r2|e2|e2] eqn:H2;
    [discriminate| |].
  2: { intros [= <- <-]. split; [eapply outcome_other; eassumption|]. right.
       cbn [reqs sent emit]. rewrite pred_of_succ.
       eapply outcome_other_raised; eassumption. }
  destruct (outcome_of (transport env (S (S (reqs w))) url)) as [r3|e3|e3] eqn:H3;
    [discriminate| |].
  - intros [= <- <-]. split; [reflexivity|]. left. exists e3.
    split; [reflexivity|]. split; [eapply outcome_transient; eassumption|]. cbn. lia.
  - intros [= <- <-]. split; [eapply outcome_other; eassumption|]. right.
    cbn [reqs sent emit]. rewrite pred_of_succ.
    eapply outcome_other_raised; eassumption.
Qed.

End GetOutcomes.

(** X1 on the network that answers at the third request. *)
Lemma get_returns_last_success_witness :
  AsyncHttpx.get Sample.env_retry "u" Sample.world0 =
    (Ok (mkResponse 200 (str "u")),
     snd (AsyncHttpx.get Sample.env_retry "u" Sample.world0)) /\
  transport Sample.env_retry 2 "u" = Ok (mkResponse 200 (str "u")).
Proof.
  split; [reflexivity|].
  exact (proj2 (proj2 (get_returns_last_success Sample.env_retry "u" Sample.world0
                         (mkResponse 200 (str "u"))
                         (snd (AsyncHttpx.get Sample.env_retry "u" Sample.world0))
                         eq_refl))).
Defined.

(** X2 on the network that answers 404 to everything. *)
Lemma get_raises_no_bare_transient_witness :
  AsyncHttpx.get Sample.env_404 "u" Sample.world0 =
    (Raise (RetryError (HTTPStatusError 404)),
     snd (AsyncHttpx.get Sample.env_404 "u" Sample.world0)) /\
  AsyncHttpx.transient (RetryError (HTTPStatusError 404)) = false.
Proof.
  split; [reflexivity|].
  exact (proj1 (get_raises_no_bare_transient Sample.env_404 "u" Sample.world0
                  (RetryError (HTTPStatusError 404))
                  (snd (AsyncHttpx.get Sample.env_404 "u" Sample.world0))
                  eq_refl)).
Defined.

(** ** More on the festival calculator *)

Lemma rmap_length {A B} (f : A -> result B) (l : list A) ys :
  rmap f l = Ok ys -> length ys = length l.
Proof.
  revert ys. induction l as [|x l IH]; intros ys H; cbn in H.
  - injection H as <-. reflexivity.
  - destruct (f x); cbn in H; [|discriminate].
    destruct (rmap f l) as [ys'|]; cbn in H; [|discriminate].
    injection H as <-. cbn. rewrite (IH ys' eq_refl). reflexivity.
Qed.

Lemma rmap_cons_inv {A B} (f : A -> result B) x (l : list A) ys :
  rmap f (x :: l) = Ok ys ->
  exists y ys', f x = Ok y /\ rmap f l = Ok ys' /\ ys = y :: ys'.
Proof.
  cbn [rmap]. destruct (f x) as [y|]; cbn [rbind]; [|discriminate].
  destruct (rmap f l) as [ys'|]; cbn [rbind]; [|discriminate].
  intros [= <-]. eauto.
Qed.

Section FestivalShape.

Variable env : Env.

Lemma festival_window_shape n i threshold l :
  index (favs_arr env) i = Ok threshold ->
  n <= threshold ->
  festival_window (favs_arr env) (favs_list env) n i = Ok l ->
  length l = 7%nat /\ exists offset name rest, l = (offset, name) :: rest /\ 0 <= offset.
Proof.
  intros Hi Hn Hw. split.
  - apply rmap_length in Hw. exact Hw.
  - unfold festival_window in Hw.
    change (range 0 14 2) with (0 :: [2; 4; 6; 8; 10; 12]) in Hw.
    apply rmap_cons_inv in Hw as ([offset name] & rest & Hp & _ & ->).
    exists offset, name, rest. split; [reflexivity|].
    unfold festival_pair in Hp. rewrite Z.add_0_r, Hi in Hp. cbn [rbind] in Hp.
    destruct (index (favs_arr env) (i + 1)) as [label|]; cbn [rbind] in Hp; [|discriminate].
    destruct (index (favs_list env) label); cbn [rbind] in Hp; [|discriminate].
    injection Hp as <- _. lia.
Qed.

Lemma festival_scan_shape n todo :
  match festival_scan (favs_arr env) (favs_list env) n todo with
  | Ok l =>
      l = [] \/
      (length l = 7%nat /\ exists offset name rest, l = (offset, name) :: rest /\ 0 <= offset)
  | Raise e => e = IndexError
  end.
Proof.
  induction todo as [|i todo IH]; cbn [festival_scan]; [left; reflexivity|].
  destruct (index (favs_arr env) i) as [threshold|e] eqn:Hi; cbn [rbind].
  - destruct (Z.leb_spec n threshold) as [Hn|_]; [|exact IH].
    destruct (festival_window _ _ n i) as [l|e] eqn:Hw.
    + right. eapply festival_window_shape; eassumption.
    + eapply festival_window_raises. exact Hw.
  - eapply index_raises. exact Hi.
Qed.

(** X3. [festival_calculation] reads the clock once and does nothing else.
    A list it returns is empty or has exactly seven pairs, the first of
    which has an offset that is not negative; an exception it raises is
    an IndexError. *)
Theorem festival_calculation_shape w :
  snd (Report.festival_calculation env w) = tick w /\
  match fst (Report.festival_calculation env w) with
  | Ok l =>
      l = [] \/
      (length l = 7%nat /\ exists offset name rest, l = (offset, name) :: rest /\ 0 <= offset)
  | Raise e => e = IndexError
  end.
Proof.
  rewrite festival_calculation_run. split; [reflexivity|]. cbn [fst].
  apply festival_scan_shape.
Qed.

End FestivalShape.

(** ** More on the adapters *)

Lemma fetches_once_bind {B} env url (k : Response -> M B) w :
  (forall a w1, reqs (snd (k a w1)) = reqs w1 /\ trace (snd (k a w1)) = trace w1) ->
  fetches_once env url (bind (AsyncHttpx.get env url) k) w.
Proof.
  intros Hk. unfold fetches_once. rewrite bind_run.
  destruct (AsyncHttpx.get env url w) as [[a|e] w1]; cbn [fst snd].
  - destruct (Hk a w1) as [Hr Ht]. repeat split; try assumption. discriminate.
  - repeat split. intros e' [= <-]. reflexivity.
Qed.

Lemma rmap_missing_key (objs : list (list (pystr * json))) key :
  Exists (fun fields => dict_get fields key = None) objs ->
  rmap (fun item => getitem_key item key) (map JObject objs) = Raise KeyError.
Proof.
  induction objs as [|fields objs IH]; intros H; [inversion H|].
  cbn [map rmap getitem_key].
  destruct (dict_get fields key) as [v|] eqn:Hv; cbn [rbind]; [|reflexivity].
  inversion H as [? ? Hhere|? ? Hlater]; subst; [congruence|].
  rewrite (IH Hlater). reflexivity.
Qed.

Section AdapterEdges.

Variable env : Env.

(** X4. Each of the five network adapters calls [AsyncHttpx.get] once, on
    its own URL, and causes no other traffic: the requests it sends and the
    events it leaves are those of that one call, whatever the body turns
    out to be (a body that fails to parse or to validate is not fetched
    again), and an exception of the fetch is the exception of the
    adapter. *)
Theorem adapters_fetch_once w :
  fetches_once env Report.hitokoto_url (Report.get_hitokoto env) w /\
  fetches_once env Report.bili_url (Report.get_bili env) w /\
  fetches_once env Report.six_url (Report.get_six env) w /\
  fetches_once env Report.anime_url (Report.get_anime env) w /\
  fetches_once env Report.it_url (Report.get_it env) w.
Proof.
  repeat split; try apply fetches_once_bind; intros res w1;
    repeat first
      [ rewrite bind_run
      | progress cbn [lift datetime_now ret fst snd]
      | match goal with
        | |- context [match ?r with Ok _ => _ | Raise _ => _ end] => destruct r
        end ];
    split; reflexivity.
Qed.

(** X5. Once the fetch of the quote has returned a response, [get_hitokoto]
    ends by the body alone, in the world the fetch left: JSONDecodeError
    when the body is not JSON, TypeError when it is JSON but not an
    object, ValidationError when the object does not validate as a
    quote, and the [hitokoto] field of the validated quote otherwise. *)
Theorem get_hitokoto_outcomes w res w1 :
  AsyncHttpx.get env Report.hitokoto_url w = (Ok res, w1) ->
  (json_loads env (text res) = None ->
   Report.get_hitokoto env w = (Raise JSONDecodeError, w1)) /\
  (forall body, json_loads env (text res) = Some body ->
                (forall fields, body <> JObject fields) ->
                Report.get_hitokoto env w = (Raise TypeError, w1)) /\
  (forall fields, json_loads env (text res) = Some (JObject fields) ->
                  Hitokoto_validate env fields = None ->
                  Report.get_hitokoto env w = (Raise ValidationError, w1)) /\
  (forall fields quote, json_loads env (text res) = Some (JObject fields) ->
                        Hitokoto_validate env fields = Some quote ->
                        Report.get_hitokoto env w = (Ok (hitokoto quote), w1)).
Proof.
  intros Hget. unfold Report.get_hitokoto. rewrite bind_run, Hget.
  unfold Report.response_json. repeat split.
  - intros ->. reflexivity.
  - intros body -> Hbody. rewrite bind_run. cbn [lift rbind].
    destruct body; try reflexivity. exfalso. eapply Hbody. reflexivity.
  - intros fields -> Hv. rewrite bind_run. cbn [lift rbind construct].
    rewrite Hv. reflexivity.
  - intros fields quote -> Hv. rewrite bind_run. cbn [lift rbind construct].
    rewrite Hv. reflexivity.
Qed.

(** X6. Once the fetch of the trending topics has returned a response
    with JSON body [body], [get_bili] raises KeyError when [body] is an
    object without a [list] field, and also when [list] is an array of
    objects one of which has no [keyword] field (no partial list is
    returned); it raises TypeError when [body] is an array; and it returns
    the empty list when [list] is the empty array. *)
Theorem get_bili_edges w res w1 body :
  AsyncHttpx.get env Report.bili_url w = (Ok res, w1) ->
  json_loads env (text res) = Some body ->
  (forall fields, body = JObject fields ->
                  dict_get fields (str "list") = None ->
                  Report.get_bili env w = (Raise KeyError, w1)) /\
  (forall fields objs, body = JObject fields ->
                       dict_get fields (str "list") = Some (JArray (map JObject objs)) ->
                       Exists (fun f => dict_get f (str "keyword") = None) objs ->
                       Report.get_bili env w = (Raise KeyError, w1)) /\
  (forall elements, body = JArray elements ->
                    Report.get_bili env w = (Raise TypeError, w1)) /\
  (forall fields, body = JObject fields ->
                  dict_get fields (str "list") = Some (JArray []) ->
                  Report.get_bili env w = (Ok [], w1)).
Proof.
  intros Hget Hjson. unfold Report.get_bili. rewrite bind_run, Hget.
  unfold Report.response_json. rewrite Hjson. rewrite bind_run. cbn [lift].
  repeat split.
  - intros fields -> Hlist. cbn [getitem_key]. rewrite Hlist. reflexivity.
  - intros fields objs -> Hlist Hmissing. cbn [getitem_key]. rewrite Hlist.
    cbn [rbind collect_key]. rewrite (rmap_missing_key _ _ Hmissing). reflexivity.
  - intros elements ->. reflexivity.
  - intros fields -> Hlist. cbn [getitem_key]. rewrite Hlist. reflexivity.
Qed.

(** X7. The fallback of [get_anime] to the last element is for a missing
    index only. Once the fetch has returned a response: when the body is an
    array that has an element at the index of the weekday and the [Anime]
    entry cannot be built from that element, the exception of the
    construction leaves [get_anime], whatever the last element is; and when
    the body is a JSON object, [get_anime] raises KeyError. *)
Theorem get_anime_falls_back_on_index_only w res w1 :
  AsyncHttpx.get env Report.anime_url w = (Ok res, w1) ->
  let weekday := weekday_of_day (days_since_base (clock env (ticks w1))) in
  (forall elements x e,
      json_loads env (text res) = Some (JArray elements) ->
      elements !! Z.to_nat weekday = Some x ->
      construct (Anime_validate env) x = Raise e ->
      Report.get_anime env w = (Raise e, tick w1)) /\
  (forall fields,
      json_loads env (text res) = Some (JObject fields) ->
      Report.get_anime env w = (Raise KeyError, tick w1)).
Proof.
  intros Hget weekday.
  assert (forall r, Report.select_anime env res weekday = Raise r ->
                    Report.get_anime env w = (Raise r, tick w1)) as Hraise.
  { intros r Hsel. unfold Report.get_anime. rewrite bind_run, Hget.
    rewrite bind_run. cbn [datetime_now]. rewrite bind_run. cbn [lift].
    fold weekday. rewrite Hsel. reflexivity. }
  split.
  - intros elements x e Hjson Hx Hbuild. apply Hraise.
    unfold Report.select_anime, Report.anime_at, Report.response_json.
    rewrite Hjson. cbn [rbind getitem_int].
    assert (index elements weekday = Ok x) as ->.
    { rewrite <- (Z2Nat.id weekday) by apply weekday_range.
      rewrite index_of_nat, Hx. reflexivity. }
    cbn [rbind]. rewrite except_IndexError_other; [exact Hbuild|].
    intros e'. apply construct_raises.
  - intros fields Hjson. apply Hraise.
    unfold Report.select_anime, Report.anime_at, Report.response_json.
    rewrite Hjson. reflexivity.
Qed.

(** X8. A [title] element without text is not skipped by [get_it]: when
    the parsed feed has at most 11 entries with a [title] child and one of
    them has a first [title] child without text, the list returned has one
    element per entry with a [title] child, and None is among them. *)
Theorem get_it_keeps_titles_without_text w res w1 root entry t :
  AsyncHttpx.get env Report.it_url w = (Ok res, w1) ->
  ET_fromstring env (text res) = Some root ->
  (length (omap entry_title (entries root)) <= 11)%nat ->
  In entry (entries root) ->
  find (str "title") entry = Some t ->
  text_of t = None ->
  exists l,
    Report.get_it env w = (Ok l, w1) /\
    In None l /\
    length l =
    length (List.filter (fun e => bool_decide (is_Some (find (str "title") e)))
                        (entries root)).
Proof.
  intros Hget Hxml Hlen Hin Hfind Htext.
  exists (omap entry_title (entries root)). split; [|split].
  - unfold Report.get_it. rewrite bind_run, Hget, Hxml. rewrite bind_run. cbn [lift ret].
    rewrite first_at_most_take, it_titles_omap, take_ge by lia. reflexivity.
  - apply list_elem_of_In, list_elem_of_omap. exists entry.
    split; [apply list_elem_of_In; exact Hin|].
    unfold entry_title. rewrite Hfind. cbn. rewrite Htext. reflexivity.
  - clear. induction (entries root) as [|e l IH]; [reflexivity|].
    cbn [omap list_omap List.filter]. unfold entry_title at 1.
    destruct (find (str "title") e) as [t|]; cbn.
    + f_equal. exact IH.
    + exact IH.
Qed.

End AdapterEdges.

(** X5 on three sample bodies: an array, an object without the field, and
    the expected object. *)
Lemma get_hitokoto_outcomes_witness :
  Report.get_hitokoto Sample.env_quote_array Sample.world0 =
    (Raise TypeError, sent Report.hitokoto_url Sample.world0) /\
  Report.get_hitokoto Sample.env_quote_other Sample.world0 =
    (Raise ValidationError, sent Report.hitokoto_url Sample.world0) /\
  Report.get_hitokoto Sample.env Sample.world0 =
    (Ok (str "carpe diem"), sent Report.hitokoto_url Sample.world0).
Proof.
  split; [|split].
  - apply (proj1 (proj2 (get_hitokoto_outcomes Sample.env_quote_array Sample.world0
                           (mkResponse 200 (str Report.hitokoto_url))
                           (sent Report.hitokoto_url Sample.world0) eq_refl))
             (JArray []) eq_refl).
    discriminate.
  - exact (proj1 (proj2 (proj2 (get_hitokoto_outcomes Sample.env_quote_other Sample.world0
                                  (mkResponse 200 (str Report.hitokoto_url))
                                  (sent Report.hitokoto_url Sample.world0) eq_refl)))
             _ eq_refl eq_refl).
  - exact (proj2 (proj2 (proj2 (get_hitokoto_outcomes Sample.env Sample.world0
                                  (mkResponse 200 (str Report.hitokoto_url))
                                  (sent Report.hitokoto_url Sample.world0) eq_refl)))
             _ (mkHitokoto (str "carpe diem")) eq_refl eq_refl).
Defined.

(** X6 on a sample body whose second element has no keyword. *)
Lemma get_bili_edges_witness :
  Report.get_bili Sample.env_no_keyword Sample.world0 =
    (Raise KeyError, sent Report.bili_url Sample.world0).
Proof.
  refine (proj1 (proj2 (get_bili_edges Sample.env_no_keyword Sample.world0
                          (mkResponse 200 (str Report.bili_url))
                          (sent Report.bili_url Sample.world0) _ eq_refl eq_refl))
            _ [[(str "keyword", JString (str "k01"))];
               [(str "word", JString (str "k02"))];
               [(str "keyword", JString (str "k03"))]] eq_refl eq_refl _).
  apply Exists_cons_tl, Exists_cons_hd. reflexivity.
Defined.

(** X7 on a sample calendar of seven entries, on a Saturday: the Saturday
    entry is a number, the last entry is a valid one. *)
Lemma get_anime_falls_back_on_index_only_witness :
  Report.get_anime Sample.env_bad_saturday Sample.world0 =
    (Raise TypeError, tick (sent Report.anime_url Sample.world0)).
Proof.
  exact (proj1 (get_anime_falls_back_on_index_only Sample.env_bad_saturday Sample.world0
                  (mkResponse 200 (str Report.anime_url))
                  (sent Report.anime_url Sample.world0) eq_refl)
           _ (JNumber "6") TypeError eq_refl eq_refl eq_refl).
Defined.

(** X8 on a sample feed of three entries, the second with an empty title
    element. *)
Lemma get_it_keeps_titles_without_text_witness :
  exists l,
    Report.get_it Sample.env_empty_title Sample.world0 =
      (Ok l, sent Report.it_url Sample.world0) /\
    In None l /\ length l = 3%nat.
Proof.
  destruct (get_it_keeps_titles_without_text Sample.env_empty_title Sample.world0
              (mkResponse 200 (str Report.it_url)) (sent Report.it_url Sample.world0)
              (Sample.rss [Sample.item "t01";
                           Elem (str "item") None [Elem (str "title") None []];
                           Sample.item "t03"])
              (Elem (str "item") None [Elem (str "title") None []])
              (Elem (str "title") None [])
              eq_refl eq_refl)
    as (l & Hrun & Hnone & Hlen).
  - vm_compute. lia.
  - vm_compute. tauto.
  - reflexivity.
  - reflexivity.
  - exists l. split; [exact Hrun|]. split; [exact Hnone|]. rewrite Hlen. reflexivity.
Defined.

(** ** More on the pipeline *)

Ltac ok_step H a w Ha :=
  apply bind_inv in H as [(? & _ & [=]) | (a & w & Ha & H)].

Section PipelineSources.

Variable env : Env.

(** What a returned report went through after a cache miss. *)
Lemma miss_inversion w b w' :
  fs w !! days_since_base (clock env (ticks w)) = None ->
  Report.get_report_image env w = (Ok b, w') ->
  exists zhdata festival w1 quote w2 bili w3 six w4 anime w5 it w6 label token,
    ZhDate_from_datetime env (clock env (ticks w)) = Ok zhdata /\
    Report.festival_calculation env (tick w) = (Ok festival, w1) /\
    Report.get_hitokoto env w1 = (Ok quote, w2) /\
    Report.get_bili env w2 = (Ok bili, w3) /\
    Report.get_six env w3 = (Ok six, w4) /\
    Report.get_anime env w4 = (Ok anime, w5) /\
    Report.get_it env w5 = (Ok it, w6) /\
    Report.week (weekday_of_day (days_since_base (clock env (ticks w)))) = Some label /\
    index (split (ZhDate_chinese env zhdata)) 0 = Ok token /\
    template_to_pic env
      (mkReportData festival quote bili six anime it label
                    (days_since_base (clock env (ticks w))) (drop 5 token)) = Ok b /\
    w' = written (days_since_base (clock env (ticks w6))) b
           (tick (emit (ERender
                          (mkReportData festival quote bili six anime it label
                             (days_since_base (clock env (ticks w))) (drop 5 token)))
                       w6)).
Proof.
  intros Hmiss H. unfold Report.get_report_image in H.
  rewrite bind_run in H. cbn [datetime_now] in H.
  rewrite bind_run in H. unfold Report.file_content in H. cbn [fs tick] in H.
  rewrite Hmiss in H.
  ok_step H zhdata w0 Hzh. cbn [lift] in Hzh. injection Hzh as Hzh <-.
  ok_step H festival w1 Hf.
  ok_step H quote w2 Hq.
  ok_step H bili w3 Hb.
  ok_step H six w4 Hs.
  ok_step H anime w5 Ha.
  ok_step H it w6 Hi.
  ok_step H label w7 Hl. cbn [lift] in Hl. injection Hl as Hl <-.
  ok_step H lunar w8 Hz. cbn [lift] in Hz. injection Hz as Hz <-.
  rewrite bind_run in H. unfold Report.render in H.
  destruct (template_to_pic env _) as [image|] eqn:Hpic; [|discriminate].
  injection H as <- <-.
  destruct (Report.week _) as [l|] eqn:Hweek; [|discriminate]. injection Hl as ->.
  destruct (index (split (ZhDate_chinese env zhdata)) 0) as [token|] eqn:Htok;
    [|discriminate].
  cbn [rbind] in Hz. injection Hz as <-.
  exists zhdata, festival, w1, quote, w2, bili, w3, six, w4, anime, w5, it, w6, label, token.
  repeat split; assumption || reflexivity.
Qed.

(** X9. After a cache miss, [get_report_image] returns [b] if and only if
    all of this happened, in this order: the lunar conversion succeeded, the
    festival calculator and the five adapters returned one after the
    other, the weekday has its label, the lunar text has a first word, the
    renderer made [b] of exactly these values with the day the call started
    on as the date, and the file was written after the render. A report is
    never rendered from fewer sources. *)
Theorem report_is_composed_of_all_sources w b w' :
  fs w !! days_since_base (clock env (ticks w)) = None ->
  Report.get_report_image env w = (Ok b, w') <->
  exists zhdata festival w1 quote w2 bili w3 six w4 anime w5 it w6 label token,
    ZhDate_from_datetime env (clock env (ticks w)) = Ok zhdata /\
    Report.festival_calculation env (tick w) = (Ok festival, w1) /\
    Report.get_hitokoto env w1 = (Ok quote, w2) /\
    Report.get_bili env w2 = (Ok bili, w3) /\
    Report.get_six env w3 = (Ok six, w4) /\
    Report.get_anime env w4 = (Ok anime, w5) /\
    Report.get_it env w5 = (Ok it, w6) /\
    Report.week (weekday_of_day (days_since_base (clock env (ticks w)))) = Some label /\
    index (split (ZhDate_chinese env zhdata)) 0 = Ok token /\
    template_to_pic env
      (mkReportData festival quote bili six anime it label
                    (days_since_base (clock env (ticks w))) (drop 5 token)) = Ok b /\
    w' = written (days_since_base (clock env (ticks w6))) b
           (tick (emit (ERender
                          (mkReportData festival quote bili six anime it label
                             (days_since_base (clock env (ticks w))) (drop 5 token)))
                       w6)).
Proof.
  intros Hmiss. split; [apply miss_inversion; exact Hmiss|].
  intros (zh & f & w1 & q & w2 & bi & w3 & s & w4 & a & w5 & it & w6 & label & token
          & Hzh & Hf & Hq & Hb & Hs & Ha & Hi & Hweek & Htok & Hpic & ->).
  unfold Report.get_report_image.
  rewrite bind_run. cbn [datetime_now].
  rewrite bind_run. unfold Report.file_content. cbn [fs tick]. rewrite Hmiss.
  rewrite bind_run. cbn [lift]. rewrite Hzh.
  rewrite bind_run, Hf. rewrite bind_run, Hq. rewrite bind_run, Hb.
  rewrite bind_run, Hs. rewrite bind_run, Ha. rewrite bind_run, Hi.
  rewrite bind_run. cbn [lift]. rewrite Hweek.
  rewrite bind_run. cbn [lift]. rewrite Htok. cbn [rbind].
  rewrite bind_run. unfold Report.render. rewrite Hpic. reflexivity.
Qed.

(** X10. The file is named by the date [save] reads, which is the last
    read of the clock in the call, not by the date the call started on.
    After a miss that returns [b], the file of the date of that last read
    holds [b], and a call that starts on that date returns [b] from it;
    the report inside was rendered with the start date. When the two dates
    differ, the file of the start date still does not exist. *)
Theorem file_is_named_by_the_date_at_save w b w' :
  fs w !! days_since_base (clock env (ticks w)) = None ->
  Report.get_report_image env w = (Ok b, w') ->
  let started := days_since_base (clock env (ticks w)) in
  let saved := days_since_base (clock env (ticks w' - 1)) in
  fs w' = <[saved := b]> (fs w) /\
  (exists d, In (ERender d) (trace w') /\ date d = started /\
             template_to_pic env d = Ok b) /\
  (saved <> started -> fs w' !! started = None) /\
  (days_since_base (clock env (ticks w')) = saved ->
   Report.get_report_image env w' = (Ok b, tick w')).
Proof.
  intros Hmiss H started saved.
  destruct (miss_inversion w b w' Hmiss H)
    as (zh & f & w1 & q & w2 & bi & w3 & s & w4 & a & w5 & it & w6 & label & token
        & _ & Hf & Hq & Hb & Hs & Ha & Hi & _ & _ & Hpic & ->).
  assert (fs w6 = fs w) as Hfs.
  { assert (reaches (tick w) w6) as (Hfs & _).
    { pose proof (network_only_festival env _ _ _ Hf).
      pose proof (network_only_hitokoto env _ _ _ Hq).
      pose proof (network_only_bili env _ _ _ Hb).
      pose proof (network_only_six env _ _ _ Hs).
      pose proof (network_only_anime env _ _ _ Ha).
      pose proof (network_only_it env _ _ _ Hi).
      repeat first [eassumption | eapply reaches_trans; [eassumption|]]. }
    exact Hfs. }
  subst saved. cbn [ticks written tick emit fs trace]. rewrite pred_of_succ.
  split; [rewrite Hfs; reflexivity|]. split; [|split].
  - eexists. split; [|split; [|exact Hpic]]; [|reflexivity].
    apply in_or_app. left. apply in_or_app. right. left. reflexivity.
  - intros Hne. rewrite lookup_insert_ne by exact Hne. rewrite Hfs. exact Hmiss.
  - intros Hday. apply get_report_image_hit. cbn [fs ticks written tick emit].
    rewrite Hday. apply lookup_insert_eq.
Qed.

(** X11. What is local comes before the network. After a cache miss, when
    the lunar conversion of the date raises, [get_report_image] raises
    that exception after its one read of the clock; and when the festival
    calculator raises, [get_report_image] raises that exception after two
    reads of the clock. In both cases no request has been sent and nothing
    else has happened. *)
Theorem local_failures_send_no_request w :
  fs w !! days_since_base (clock env (ticks w)) = None ->
  (forall e, ZhDate_from_datetime env (clock env (ticks w)) = Raise e ->
             Report.get_report_image env w = (Raise e, tick w)) /\
  (forall zhdata e,
      ZhDate_from_datetime env (clock env (ticks w)) = Ok zhdata ->
      fst (Report.festival_calculation env (tick w)) = Raise e ->
      Report.get_report_image env w = (Raise e, tick (tick w))).
Proof.
  intros Hmiss. split.
  - intros e Hzh. unfold Report.get_report_image.
    rewrite bind_run. cbn [datetime_now].
    rewrite bind_run. unfold Report.file_content. cbn [fs tick]. rewrite Hmiss.
    rewrite bind_run. cbn [lift]. rewrite Hzh. reflexivity.
  - intros zhdata e Hzh Hf. unfold Report.get_report_image.
    rewrite bind_run. cbn [datetime_now].
    rewrite bind_run. unfold Report.file_content. cbn [fs tick]. rewrite Hmiss.
    rewrite bind_run. cbn [lift]. rewrite Hzh.
    rewrite bind_run. rewrite festival_calculation_run in *. cbn [fst] in Hf.
    rewrite Hf. reflexivity.
Qed.

(** X12. What [save] writes is what [get_report_image] reads. [save]
    replaces the file of the date it reads, whatever that file held,
    leaves every other file alone and sends no request; and a call of
    [get_report_image] that starts on that date right after returns the
    content saved. *)
Theorem save_then_get_report_image w content :
  let day := days_since_base (clock env (ticks w)) in
  let w1 := snd (save env content w) in
  fs w1 !! day = Some content /\
  (forall d, d <> day -> fs w1 !! d = fs w !! d) /\
  reqs w1 = reqs w /\
  ticks w1 = S (ticks w) /\
  (days_since_base (clock env (ticks w1)) = day ->
   Report.get_report_image env w1 = (Ok content, tick w1)).
Proof.
  intros day w1. subst w1. unfold save. rewrite bind_run. cbn [datetime_now fst snd].
  fold day. cbn [fs written tick reqs ticks].
  split; [apply lookup_insert_eq|].
  split; [intros d Hd; apply lookup_insert_ne; congruence|].
  split; [reflexivity|]. split; [reflexivity|].
  intros Hday. apply get_report_image_hit. cbn [fs written tick ticks] in *.
  rewrite Hday. apply lookup_insert_eq.
Qed.

End PipelineSources.

(** X9 on the sample network: the report of day 15 went through the seven
    festival pairs, the quote and the twelve keywords. *)
Lemma report_is_composed_of_all_sources_witness :
  exists festival quote bili w1 w2 w3,
    Report.festival_calculation Sample.env (tick Sample.world0) = (Ok festival, w1) /\
    Report.get_hitokoto Sample.env w1 = (Ok quote, w2) /\
    Report.get_bili Sample.env w2 = (Ok bili, w3) /\
    length festival = 7%nat /\ quote = str "carpe diem" /\ length bili = 12%nat.
Proof.
  destruct (proj1 (report_is_composed_of_all_sources Sample.env Sample.world0
                     [Byte.x89; Byte.x50; Byte.x4e; Byte.x47; Byte.x0c]
                     (snd (Report.get_report_image Sample.env Sample.world0)) eq_refl)
              eq_refl)
    as (zh & f & w1 & q & w2 & bi & w3 & s & w4 & a & w5 & it & w6 & label & token
        & Hzh & Hf & Hq & Hb & _).
  exists f, q, bi, w1, w2, w3.
  split; [exact Hf|]. split; [exact Hq|]. split; [exact Hb|].
  vm_compute in Hf. injection Hf as Ef Ew. subst w1.
  vm_compute in Hq. injection Hq as Eq Ew. subst w2.
  vm_compute in Hb. injection Hb as Eb _.
  subst f q bi. repeat split.
Defined.

(** X10 on a call that starts one second before midnight of day 15 and
    saves one second after it: the file is that of day 16. *)
Lemma file_is_named_by_the_date_at_save_witness :
  fs (snd (Report.get_report_image Sample.env_midnight Sample.world0)) !! 15 = None /\
  fs (snd (Report.get_report_image Sample.env_midnight Sample.world0)) !! 16 =
    Some [Byte.x89; Byte.x50; Byte.x4e; Byte.x47; Byte.x0c].
Proof.
  destruct (file_is_named_by_the_date_at_save Sample.env_midnight Sample.world0
              [Byte.x89; Byte.x50; Byte.x4e; Byte.x47; Byte.x0c]
              (snd (Report.get_report_image Sample.env_midnight Sample.world0))
              eq_refl eq_refl)
    as (Hfs & _ & Hstart & _).
  split.
  - apply Hstart. vm_compute. discriminate.
  - rewrite Hfs. reflexivity.
Defined.

(** X11 on a lunar calendar that rejects the date, and on a festival table
    that ends inside its only window. *)
Lemma local_failures_send_no_request_witness :
  Report.get_report_image (Sample.without_lunar Sample.env) Sample.world0 =
    (Raise (OtherError "date out of range"), tick Sample.world0) /\
  Report.get_report_image Sample.env_short_table Sample.world0 =
    (Raise IndexError, tick (tick Sample.world0)).
Proof.
  split.
  - exact (proj1 (local_failures_send_no_request (Sample.without_lunar Sample.env)
                    Sample.world0 eq_refl) _ eq_refl).
  - exact (proj2 (local_failures_send_no_request Sample.env_short_table
                    Sample.world0 eq_refl) (str "2016y-11m-22d rest") _ eq_refl eq_refl).
Defined.

(** X12 on the sample clock: four bytes saved at noon of day 15 are what
    the next call returns. *)
Lemma save_then_get_report_image_witness :
  Report.get_report_image Sample.env
    (snd (save Sample.env [Byte.x01; Byte.x02; Byte.x03; Byte.x04] Sample.world0)) =
  (Ok [Byte.x01; Byte.x02; Byte.x03; Byte.x04],
   tick (snd (save Sample.env [Byte.x01; Byte.x02; Byte.x03; Byte.x04] Sample.world0))).
Proof.
  apply (save_then_get_report_image Sample.env Sample.world0
           [Byte.x01; Byte.x02; Byte.x03; Byte.x04]).
  reflexivity.
Defined.

(** ** The cost of a call *)

Lemma sleeps_app evs1 evs2 : sleeps (evs1 ++ evs2) = (sleeps evs1 + sleeps evs2)%nat.
Proof. unfold sleeps. rewrite List.filter_app, length_app. reflexivity. Qed.

Lemma costs_free {A} (m : M A) :
  (forall w, snd (m w) = w) -> costs 0 0 0 m.
Proof.
  intros Hm w r w' H. pose proof (Hm w) as Hw. rewrite H in Hw. cbn in Hw. subst w'.
  split; [lia|]. split; [lia|]. exists []. rewrite app_nil_r. split; [reflexivity|].
  cbn. lia.
Qed.

Lemma costs_bind {A B} n1 t1 s1 n2 t2 s2 (m : M A) (k : A -> M B) :
  costs n1 t1 s1 m -> (forall a, costs n2 t2 s2 (k a)) ->
  costs (n1 + n2) (t1 + t2) (s1 + s2) (bind m k).
Proof.
  intros Hm Hk w r w' H.
  apply bind_inv in H as [(e & H & _)|(a & w1 & H1 & H2)].
  - destruct (Hm _ _ _ H) as (Hr & Ht & evs & Hev & Hs).
    split; [lia|]. split; [lia|]. exists evs. split; [exact Hev|lia].
  - destruct (Hm _ _ _ H1) as (Hr1 & Ht1 & evs1 & Hev1 & Hs1).
    destruct (Hk a _ _ _ H2) as (Hr2 & Ht2 & evs2 & Hev2 & Hs2).
    split; [lia|]. split; [lia|]. exists (evs1 ++ evs2).
    split; [rewrite Hev2, Hev1, app_assoc; reflexivity|].
    rewrite sleeps_app. lia.
Qed.

Lemma costs_weaken {A} n t s n' t' s' (m : M A) :
  (n <= n')%nat -> (t <= t')%nat -> (s <= s')%nat -> costs n t s m -> costs n' t' s' m.
Proof.
  intros Hn Ht Hs Hm w r w' H. destruct (Hm _ _ _ H) as (Hr & Hti & evs & Hev & Hsl).
  split; [lia|]. split; [lia|]. exists evs. split; [exact Hev|lia].
Qed.

Section Cost.

Variable env : Env.

Lemma costs_get url : costs 3 0 2 (AsyncHttpx.get env url).
Proof.
  intros w r w'. rewrite get_unrolled.
  destruct (outcome_of (transport env (reqs w) url)); cbn zeta;
    [| destruct (outcome_of (transport env (S (reqs w)) url));
       [| destruct (outcome_of (transport env (S (S (reqs w))) url)) |] |];
    intros [= <- <-]; unfold emit, sent; cbn [reqs ticks trace];
    (split; [lia|]); (split; [lia|]);
    (eexists; split; [rewrite <- ?app_assoc; reflexivity|cbn; lia]).
Qed.

Lemma costs_now : costs 0 1 0 (datetime_now env).
Proof.
  intros w r w' [= <- <-]. cbn. split; [lia|]. split; [lia|].
  exists []. rewrite app_nil_r. split; [reflexivity|cbn; lia].
Qed.

Lemma costs_render d : costs 0 0 0 (Report.render env d).
Proof.
  intros w r w' [= <- <-]. cbn. split; [lia|]. split; [lia|].
  eexists. split; [reflexivity|cbn; lia].
Qed.

Lemma costs_save content : costs 0 1 0 (save env content).
Proof.
  intros w r w' [= <- <-]. cbn. split; [lia|]. split; [lia|].
  eexists. split; [reflexivity|cbn; lia].
Qed.

Lemma costs_lift {A} (x : result A) : costs 0 0 0 (lift x).
Proof. apply costs_free. reflexivity. Qed.

Lemma costs_ret {A} (a : A) : costs 0 0 0 (ret a).
Proof. apply costs_free. reflexivity. Qed.

Lemma costs_fetch_and_parse {A B} url (parse : Response -> result A) (f : A -> B) :
  costs 3 0 2 (bind (AsyncHttpx.get env url)
                    (fun res => bind (lift (parse res)) (fun a => ret (f a)))).
Proof.
  apply (costs_bind 3 0 2 0 0 0); [apply costs_get|]. intros res.
  apply (costs_bind 0 0 0 0 0 0); [apply costs_lift|]. intros a. apply costs_ret.
Qed.

Lemma costs_bili : costs 3 0 2 (Report.get_bili env).
Proof.
  apply (costs_bind 3 0 2 0 0 0); [apply costs_get|]. intros res.
  apply (costs_bind 0 0 0 0 0 0); [apply costs_lift|]. intros a. apply costs_lift.
Qed.

Lemma costs_anime : costs 3 1 2 (Report.get_anime env).
Proof.
  apply (costs_bind 3 0 2 0 1 0); [apply costs_get|]. intros res.
  apply (costs_bind 0 1 0 0 0 0); [apply costs_now|]. intros now.
  apply (costs_bind 0 0 0 0 0 0); [apply costs_lift|]. intros a. apply costs_ret.
Qed.

Lemma costs_get_report_image : costs 15 4 10 (Report.get_report_image env).
Proof.
  apply (costs_bind 0 1 0 15 3 10); [apply costs_now|]. intros now.
  apply (costs_bind 0 0 0 15 3 10); [apply costs_free; reflexivity|]. intros [content|].
  { apply (costs_weaken 0 0 0); try lia. apply costs_ret. }
  apply (costs_bind 0 0 0 15 3 10); [apply costs_lift|]. intros zhdata.
  apply (costs_bind 0 1 0 15 2 10).
  { apply (costs_bind 0 1 0 0 0 0); [apply costs_now|]. intros n. apply costs_lift. }
  intros festival.
  apply (costs_bind 3 0 2 12 2 8); [apply costs_fetch_and_parse|]. intros quote.
  apply (costs_bind 3 0 2 9 2 6); [apply costs_bili|]. intros bili.
  apply (costs_bind 3 0 2 6 2 4); [apply costs_fetch_and_parse|]. intros six.
  apply (costs_bind 3 1 2 3 1 2); [apply costs_anime|]. intros anime.
  apply (costs_bind 3 0 2 0 1 0); [apply costs_fetch_and_parse|]. intros it.
  apply (costs_bind 0 0 0 0 1 0); [apply costs_lift|]. intros label.
  apply (costs_bind 0 0 0 0 1 0); [apply costs_lift|]. intros lunar.
  apply (costs_bind 0 0 0 0 1 0); [apply costs_render|]. intros image_bytes.
  apply (costs_bind 0 1 0 0 0 0); [apply costs_save|]. intros _. apply costs_ret.
Qed.

(** X13. Whatever the network does and however the call ends, one call of
    [get_report_image] sends at most 15 requests (three for each of the
    five adapters), sleeps at most 10 times and reads the clock at most 4
    times. *)
Theorem get_report_image_cost w r w' :
  Report.get_report_image env w = (r, w') ->
  (reqs w' <= reqs w + 15)%nat /\
  (ticks w' <= ticks w + 4)%nat /\
  exists evs, trace w' = trace w ++ evs /\ (sleeps evs <= 10)%nat.
Proof. apply costs_get_report_image. Qed.

End Cost.

(** X13 on a network where two requests in three time out: the call
    returns, and the bounds are reached. *)
Lemma get_report_image_cost_witness :
  fst (Report.get_report_image Sample.env_flaky Sample.world0) =
    Ok [Byte.x89; Byte.x50; Byte.x4e; Byte.x47; Byte.x0c] /\
  reqs (snd (Report.get_report_image Sample.env_flaky Sample.world0)) = 15%nat /\
  ticks (snd (Report.get_report_image Sample.env_flaky Sample.world0)) = 4%nat /\
  sleeps (trace (snd (Report.get_report_image Sample.env_flaky Sample.world0))) = 10%nat /\
  (reqs (snd (Report.get_report_image Sample.env_flaky Sample.world0)) <= 0 + 15)%nat.
Proof.
  split; [reflexivity|]. split; [reflexivity|]. split; [reflexivity|].
  split; [reflexivity|].
  exact (proj1 (get_report_image_cost Sample.env_flaky Sample.world0
                  (fst (Report.get_report_image Sample.env_flaky Sample.world0))
                  (snd (Report.get_report_image Sample.env_flaky Sample.world0))
                  (surjective_pairing _))).
Defined.

(** ** A network that answers *)

Ltac pure_rest :=
  intros ? ?;
  repeat first
    [ rewrite bind_run
    | progress cbn [lift ret fst snd]
    | match goal with
      | |- context [match ?r with Ok _ => _ | Raise _ => _ end] => destruct r
      end ];
  reflexivity.

Section HealthyNetwork.

Variable env : Env.

Lemma healthy_get url w :
  (forall k u, exists r, outcome_of (transport env k u) = Succeeds r) ->
  exists r, AsyncHttpx.get env url w = (Ok r, sent url w).
Proof.
  intros healthy. destruct (healthy (reqs w) url) as [r Hr]. exists r.
  rewrite get_unrolled, Hr. reflexivity.
Qed.

Lemma healthy_fetch {B} url (k : Response -> M B) w x w' :
  (forall k u, exists r, outcome_of (transport env k u) = Succeeds r) ->
  (forall res w1, snd (k res w1) = w1) ->
  bind (AsyncHttpx.get env url) k w = (x, w') -> w' = sent url w.
Proof.
  intros healthy Hk. rewrite bind_run. destruct (healthy_get url w healthy) as [r ->].
  intros H. rewrite <- (Hk r (sent url w)), H. reflexivity.
Qed.

Lemma healthy_anime w x w' :
  (forall k u, exists r, outcome_of (transport env k u) = Succeeds r) ->
  Report.get_anime env w = (x, w') -> w' = tick (sent Report.anime_url w).
Proof.
  intros healthy. unfold Report.get_anime. rewrite bind_run.
  destruct (healthy_get Report.anime_url w healthy) as [r ->].
  rewrite bind_run. cbn [datetime_now]. rewrite bind_run. cbn [lift].
  destruct (Report.select_anime _ _ _); intros [= _ <-]; reflexivity.
Qed.

(** X14. When every request is answered with a 2xx response, a call of
    [get_report_image] that misses the cache and returns has sent exactly
    five requests, in this order: the quote, the trending topics, the
    aggregate feed, the anime calendar, the news feed; then it has
    rendered, then written the file; and it has read the clock four
    times. Nothing was logged and nothing slept. *)
Theorem healthy_network_five_requests w b w' :
  (forall k u, exists r, outcome_of (transport env k u) = Succeeds r) ->
  fs w !! days_since_base (clock env (ticks w)) = None ->
  Report.get_report_image env w = (Ok b, w') ->
  exists d day,
    trace w' =
    trace w ++ [ERequest Report.hitokoto_url; ERequest Report.bili_url;
                ERequest Report.six_url; ERequest Report.anime_url;
                ERequest Report.it_url; ERender d; EWrite day] /\
    reqs w' = (reqs w + 5)%nat /\
    ticks w' = (ticks w + 4)%nat.
Proof.
  intros healthy Hmiss H.
  destruct (miss_inversion env w b w' Hmiss H)
    as (zh & f & w1 & q & w2 & bi & w3 & s & w4 & a & w5 & it & w6 & label & token
        & _ & Hf & Hq & Hb & Hs & Ha & Hi & _ & _ & _ & ->).
  rewrite festival_calculation_run in Hf. injection Hf as _ <-.
  apply (healthy_fetch _ _ _ _ _ healthy) in Hq; [|pure_rest].
  apply (healthy_fetch _ _ _ _ _ healthy) in Hb; [|pure_rest].
  apply (healthy_fetch _ _ _ _ _ healthy) in Hs; [|pure_rest].
  apply (healthy_anime _ _ _ healthy) in Ha.
  apply (healthy_fetch _ _ _ _ _ healthy) in Hi; [|pure_rest].
  subst. eexists _, _. unfold written, tick, emit, sent. cbn [fs ticks reqs trace].
  rewrite <- !app_assoc. cbn [app].
  split; [reflexivity|]. split; lia.
Qed.

End HealthyNetwork.

(** X14 on the sample network. *)
Lemma healthy_network_five_requests_witness :
  exists d,
    trace (snd (Report.get_report_image Sample.env Sample.world0)) =
    [ERequest Report.hitokoto_url; ERequest Report.bili_url; ERequest Report.six_url;
     ERequest Report.anime_url; ERequest Report.it_url; ERender d; EWrite 15].
Proof.
  destruct (healthy_network_five_requests Sample.env Sample.world0
              [Byte.x89; Byte.x50; Byte.x4e; Byte.x47; Byte.x0c]
              (snd (Report.get_report_image Sample.env Sample.world0)))
    as (d & day & Htrace & _).
  - intros k u. eexists. reflexivity.
  - reflexivity.
  - reflexivity.
  - exists d. rewrite Htrace. cbn [trace Sample.world0 app].
    assert (In (EWrite day)
              (trace (snd (Report.get_report_image Sample.env Sample.world0)))) as Hin.
    { rewrite Htrace. apply in_or_app. right. do 6 right. left. reflexivity. }
    vm_compute in Hin.
    repeat (destruct Hin as [Hin|Hin]; [try discriminate Hin|]); [|destruct Hin].
    injection Hin as <-. reflexivity.
Defined.

(** ** The lunar fragment *)

Lemma split_from_blank (s : pystr) :
  forallb isspace s = true -> split_from None s = [].
Proof.
  induction s as [|c s IH]; [reflexivity|]. cbn [forallb split_from].
  intros H. apply andb_true_iff in H as [-> H]. apply IH, H.
Qed.

Lemma split_from_skip (pre s : pystr) :
  forallb isspace pre = true -> split_from None (pre ++ s) = split_from None s.
Proof.
  induction pre as [|c pre IH]; [reflexivity|]. cbn [forallb app split_from].
  intros H. apply andb_true_iff in H as [-> H]. apply IH, H.
Qed.

Lemma split_from_word (word : option pystr) (tok post : pystr) :
  forallb (fun c => negb (isspace c)) tok = true ->
  tok <> [] ->
  split_from word (tok ++ post) =
  split_from (Some (match word with Some t => t ++ tok | None => tok end)) post.
Proof.
  revert word. induction tok as [|c tok IH]; intros word H Hne; [congruence|].
  cbn [forallb] in H. apply andb_true_iff in H as [Hc H].
  apply negb_true_iff in Hc. cbn [app split_from]. rewrite Hc.
  destruct tok as [|c' tok].
  - cbn [app]. destruct word; reflexivity.
  - rewrite IH by (assumption || discriminate).
    destruct word; [rewrite <- app_assoc|]; reflexivity.
Qed.

Lemma split_from_end (t post : pystr) :
  post = [] \/ (exists c post', post = c :: post' /\ isspace c = true) ->
  exists rest, split_from (Some t) post = t :: rest.
Proof.
  intros [->|(c & post' & -> & Hc)]; cbn [split_from].
  - eauto.
  - rewrite Hc. eauto.
Qed.

Lemma index_head {A} (x : A) (l : list A) : index (x :: l) 0 = Ok x.
Proof. unfold index. cbn [length]. cbn zeta. case_cmp. reflexivity. Qed.

(** X15. The lunar fragment of the report is the first word of the lunar
    text without its first five characters: leading whitespace is
    skipped, the word ends at the next whitespace or at the end of the
    text, and a word of five characters or fewer gives the empty string;
    a text that is empty or all whitespace raises IndexError. *)
Theorem lunar_fragment_is_first_word_cut (pre tok post : pystr) :
  (forall s, forallb isspace s = true ->
             rbind (index (split s) 0) (fun token => Ok (drop 5 token))
             = Raise IndexError) /\
  (forallb isspace pre = true ->
   tok <> [] ->
   forallb (fun c => negb (isspace c)) tok = true ->
   post = [] \/ (exists c post', post = c :: post' /\ isspace c = true) ->
   rbind (index (split (pre ++ tok ++ post)) 0) (fun token => Ok (drop 5 token))
   = Ok (drop 5 tok) /\
   ((length tok <= 5)%nat ->
    rbind (index (split (pre ++ tok ++ post)) 0) (fun token => Ok (drop 5 token))
    = Ok [])).
Proof.
  split.
  - intros s Hs. unfold split. rewrite (split_from_blank s Hs), index_nil. reflexivity.
  - intros Hpre Hne Htok Hpost.
    assert (rbind (index (split (pre ++ tok ++ post)) 0) (fun token => Ok (drop 5 token))
            = Ok (drop 5 tok)) as Hrun.
    { unfold split. rewrite (split_from_skip pre _ Hpre).
      rewrite (split_from_word None tok post Htok Hne).
      destruct (split_from_end tok post Hpost) as [rest ->].
      rewrite index_head. reflexivity. }
    split; [exact Hrun|].
    intros Hlen. rewrite Hrun, drop_ge by lia. reflexivity.
Qed.

(** X15 on a sample text: two leading blanks, a word of eight characters, a
    blank and more text. *)
Lemma lunar_fragment_is_first_word_cut_witness :
  rbind (index (split (str "  2016y11m lunar text")) 0) (fun token => Ok (drop 5 token))
  = Ok (str "11m").
Proof.
  exact (proj1 (proj2 (lunar_fragment_is_first_word_cut (str "  ") (str "2016y11m")
                         (str " lunar text"))
                  eq_refl ltac:(discriminate) eq_refl
                  (or_intror (ex_intro _ 32%N (ex_intro _ (str "lunar text")
                                                  (conj eq_refl eq_refl)))))).
Defined.
